(** * Single value chart resource of the SignalFx Terraform provider

    A shallow embedding of [signalfx/resource_signalfx_single_value_chart.go]:
    the schema of the resource, the construction of the JSON payload
    ([getPayloadSingleValueChart], [getSingleValueChartOptions]) and the
    create and update operations that submit it.

    Conventions of the embedding.
    - A Go [map[string]interface{}] is a [gmap string json]; the value
      assigned last to a key wins, and the order of keys is immaterial.
    - A Go [int] is a 64-bit two's complement integer: a [Z] with the
      wrap-around of multiplication written out ([int_mul]).
    - A [float64] is an IEEE 754 binary64 number, Rocq's primitive
      [float]; the code only carries such numbers around.
    - A [*schema.ResourceData] is a record with one component per schema
      field.  An optional field is an [option]: [None] when the
      configuration never set it, [Some v] when it was set to [v]
      (possibly the zero value of its type).  A required field always
      has a value.  A [schema.TypeSet] is the list its [List()] method
      enumerates.
    - An [error] is its message. *)

From stdpp Require Import gmap strings list fin_maps.
From Stdlib Require Import ZArith Lia.
From Stdlib Require PrimFloat.

Set Warnings "-register-all".

(** ** Go integers *)

Definition wrap_int (z : Z) : Z := ((z + 2 ^ 63) mod 2 ^ 64 - 2 ^ 63)%Z.

Definition int_mul (a b : Z) : Z := wrap_int (a * b).

Definition in_int_range (z : Z) : Prop := (- 2 ^ 63 <= z < 2 ^ 63)%Z.

(** ** Errors and byte strings *)

Definition error : Type := string.

Definition bytes : Type := list Byte.byte.

Definition float64 : Type := PrimFloat.float.

(** ** JSON values handed to [json.Marshal] *)

Inductive json : Type :=
  | JStr (s : string)
  | JInt (z : Z)
  | JFloat (f : float64)
  | JBool (b : bool)
  | JArr (l : list json)
  | JObj (m : gmap string json).

(** ** The schema (lines 11-171 of the source) *)

(** One element of the [color_scale] set. *)
Record ColorScale : Type := mkColorScale {
  cs_color : string;
  cs_gt : option float64;
  cs_gte : option float64;
  cs_lt : option float64;
  cs_lte : option float64
}.

(** One element of the [viz_options] set. *)
Record VizOption : Type := mkVizOption {
  vo_label : string;
  vo_color : option string;
  vo_value_unit : option string;
  vo_value_prefix : option string;
  vo_value_suffix : option string
}.

Record ResourceData : Type := mkResourceData {
  Id : string;
  name : string;
  program_text : string;
  description : option string;
  unit_prefix : option string;
  color_by : option string;
  max_delay : option Z;
  refresh_interval : option Z;
  max_precision : option Z;
  is_timestamp_hidden : option bool;
  show_spark_line : option bool;
  secondary_visualization : option string;
  color_scale : list ColorScale;
  viz_options : list VizOption;
  synced : option bool;
  last_updated : option float64;
  url : option string
}.

(** [d.SetId(id)] *)
Definition SetId (d : ResourceData) (id : string) : ResourceData :=
  mkResourceData id (name d) (program_text d) (description d)
    (unit_prefix d) (color_by d) (max_delay d) (refresh_interval d)
    (max_precision d) (is_timestamp_hidden d) (show_spark_line d)
    (secondary_visualization d) (color_scale d) (viz_options d)
    (synced d) (last_updated d) (url d).

(** [d.Set("last_updated", t)] *)
Definition Set_last_updated (d : ResourceData) (t : float64) : ResourceData :=
  mkResourceData (Id d) (name d) (program_text d) (description d)
    (unit_prefix d) (color_by d) (max_delay d) (refresh_interval d)
    (max_precision d) (is_timestamp_hidden d) (show_spark_line d)
    (secondary_visualization d) (color_scale d) (viz_options d)
    (synced d) (Some t) (url d).

(** [d.Set("url", u)] *)
Definition Set_url (d : ResourceData) (u : string) : ResourceData :=
  mkResourceData (Id d) (name d) (program_text d) (description d)
    (unit_prefix d) (color_by d) (max_delay d) (refresh_interval d)
    (max_precision d) (is_timestamp_hidden d) (show_spark_line d)
    (secondary_visualization d) (color_scale d) (viz_options d)
    (synced d) (last_updated d) (Some u).

(** ** Reading fields: [d.Get] and [d.GetOk]

    Both belong to Terraform's [helper/schema] package.  [Get] returns
    the value of the field, or the schema's default (the zero value of
    the type when the schema declares none) when the field is not set.
    [GetOk] returns the value together with a flag that is true when
    the field has been set to a value other than the zero value of its
    type. *)

Definition Get {A : Type} (dflt : A) (field : option A) : A :=
  default dflt field.

Definition GetOk {A : Type} `{EqDecision A} (zero : A) (field : option A)
  : A * bool :=
  match field with
  | Some v => (v, bool_decide (v ≠ zero))
  | None => (zero, false)
  end.

(** ** Reading a payload

    [json_path [k1; ...; kn] j] is the value found in [j] under the
    nested keys [k1], ..., [kn], if there is one. *)

Fixpoint json_path (ks : list string) (j : json) : option json :=
  match ks with
  | [] => Some j
  | k :: ks =>
      match j with
      | JObj m => m !! k ≫= json_path ks
      | _ => None
      end
  end.

(** Two resource data agree on the configurable fields the payload is
    built from; the identifier, [synced] and the computed fields
    [last_updated] and [url] are left out. *)
Definition same_fields (d d' : ResourceData) : Prop :=
  name d = name d' ∧ program_text d = program_text d' ∧
  description d = description d' ∧ unit_prefix d = unit_prefix d' ∧
  color_by d = color_by d' ∧ max_delay d = max_delay d' ∧
  refresh_interval d = refresh_interval d' ∧
  max_precision d = max_precision d' ∧
  is_timestamp_hidden d = is_timestamp_hidden d' ∧
  show_spark_line d = show_spark_line d' ∧
  secondary_visualization d = secondary_visualization d' ∧
  color_scale d = color_scale d' ∧ viz_options d = viz_options d'.

(** Two resource data have the same effective values: every optional
    scalar reads the same once an unset field is replaced by the zero
    value of its type, and the required fields and the two sets are
    equal. *)
Definition same_effective_values (d d' : ResourceData) : Prop :=
  name d = name d' ∧ program_text d = program_text d' ∧
  default "" (description d) = default "" (description d') ∧
  default "" (unit_prefix d) = default "" (unit_prefix d') ∧
  default "" (color_by d) = default "" (color_by d') ∧
  default 0%Z (max_delay d) = default 0%Z (max_delay d') ∧
  default 0%Z (refresh_interval d) = default 0%Z (refresh_interval d') ∧
  default 0%Z (max_precision d) = default 0%Z (max_precision d') ∧
  default false (is_timestamp_hidden d) =
    default false (is_timestamp_hidden d') ∧
  default false (show_spark_line d) = default false (show_spark_line d') ∧
  default "" (secondary_visualization d) =
    default "" (secondary_visualization d') ∧
  color_scale d = color_scale d' ∧ viz_options d = viz_options d'.

(** ** Reconciliation: configuration, submissions, outcomes *)

(** [signalfxConfig]: the provider configuration passed as [meta]. *)
Record signalfxConfig : Type := mkConfig {
  APIURL : string;
  AuthToken : string;
  CustomAppURL : string
}.

(** What the remote system answers to a successful create. *)
Record Created : Type := mkCreated {
  created_id : string;
  created_lastUpdated : float64
}.

(** A submission to the remote system, as the collaborator sees it. *)
Inductive Call : Type :=
  | CreateCall (url authToken : string) (payload : bytes)
  | UpdateCall (url authToken : string) (payload : bytes).

Definition call_payload (c : Call) : bytes :=
  match c with
  | CreateCall _ _ payload => payload
  | UpdateCall _ _ payload => payload
  end.

(** The result of an operation on a resource instance: the resource data
    it leaves behind, the submissions it made, and the error it returns
    ([None] for Go's [nil]). *)
Record Outcome : Type := mkOutcome {
  data : ResourceData;
  calls : list Call;
  err : option error
}.

(** ** The schema as a table, and resource data read by key

    [singleValueChartResource] (lines 11-171 of the source) declares the
    fields in a map from names to [schema.Schema] values.  The table
    below has every entry of it except the [Description] strings, which
    document the fields and take no part in any computation.  A
    [ValidateFunc] is recorded by its name; the functions themselves are
    declared in other files. *)

Module math.
Import PrimFloat.
Definition MaxFloat32 : float64 := 0x1.fffffep+127%float.
End math.

Inductive ValueType : Type :=
  | TypeString
  | TypeInt
  | TypeFloat
  | TypeBool
  | TypeSet.

(** A Go [interface{}] as [d.Get] returns it: [nil], or a value of the
    Go type that goes with a [ValueType]. *)
Inductive value : Type :=
  | VNil
  | VString (s : string)
  | VInt (z : Z)
  | VFloat (f : float64)
  | VBool (b : bool)
  | VSet (elems : list (gmap string value)).

Inductive Schema : Type := mkSchema {
  Type_ : ValueType;
  Required : bool;
  Optional : bool;
  Computed : bool;
  Default : option value;
  ValidateFunc : option string;
  Elem : gmap string Schema
}.

Definition singleValueChartResource : gmap string Schema :=
  list_to_map [
    ("name", mkSchema TypeString true false false None None ∅);
    ("program_text", mkSchema TypeString true false false None None ∅);
    ("description", mkSchema TypeString false true false None None ∅);
    ("unit_prefix", mkSchema TypeString false true false None None ∅);
    ("color_by", mkSchema TypeString false true false None None ∅);
    ("max_delay",
      mkSchema TypeInt false true false None
        (Some "validateMaxDelayValue") ∅);
    ("refresh_interval", mkSchema TypeInt false true false None None ∅);
    ("max_precision", mkSchema TypeInt false true false None None ∅);
    ("is_timestamp_hidden",
      mkSchema TypeBool false true false (Some (VBool false)) None ∅);
    ("show_spark_line",
      mkSchema TypeBool false true false (Some (VBool false)) None ∅);
    ("secondary_visualization",
      mkSchema TypeString false true false None
        (Some "validateSecondaryVisualization") ∅);
    ("color_scale",
      mkSchema TypeSet false true false None None
        (list_to_map [
           ("color",
             mkSchema TypeString true false false None
               (Some "validateHeatmapChartColor") ∅);
           ("gt",
             mkSchema TypeFloat false true false
               (Some (VFloat math.MaxFloat32)) None ∅);
           ("gte",
             mkSchema TypeFloat false true false
               (Some (VFloat math.MaxFloat32)) None ∅);
           ("lt",
             mkSchema TypeFloat false true false
               (Some (VFloat math.MaxFloat32)) None ∅);
           ("lte",
             mkSchema TypeFloat false true false
               (Some (VFloat math.MaxFloat32)) None ∅)
         ]));
    ("viz_options",
      mkSchema TypeSet false true false None None
        (list_to_map [
           ("label", mkSchema TypeString true false false None None ∅);
           ("color",
             mkSchema TypeString false true false None
               (Some "validatePerSignalColor") ∅);
           ("value_unit",
             mkSchema TypeString false true false None
               (Some "validateUnitTimeChart") ∅);
           ("value_prefix", mkSchema TypeString false true false None None ∅);
           ("value_suffix", mkSchema TypeString false true false None None ∅)
         ]));
    ("synced",
      mkSchema TypeBool false true false (Some (VBool true)) None ∅);
    ("last_updated", mkSchema TypeFloat false false true None None ∅);
    ("url", mkSchema TypeString false false true None None ∅)
  ].

(** Resource data as Terraform holds it: the schema it was made for, the
    values that are set, by field name, and the identifier. *)
Record RawResourceData : Type := mkRaw {
  raw_schema : gmap string Schema;
  raw_values : gmap string value;
  raw_Id : string
}.

(** The zero value of the Go type behind a [ValueType]. *)
Definition zero_of (ty : ValueType) : value :=
  match ty with
  | TypeString => VString ""
  | TypeInt => VInt 0
  | TypeFloat => VFloat PrimFloat.zero
  | TypeBool => VBool false
  | TypeSet => VSet []
  end.

Definition is_zero (v : value) : bool :=
  match v with
  | VNil => true
  | VString s => bool_decide (s = "")
  | VInt z => bool_decide (z = 0%Z)
  | VFloat f => PrimFloat.eqb f PrimFloat.zero
  | VBool b => negb b
  | VSet [] => true
  | VSet (_ :: _) => false
  end.

(** [d.Get(key)] by name: [nil] for a key the schema does not declare;
    otherwise the value that is set, or the schema's default, or the
    zero value of the field's type. *)
Definition RawGet (d : RawResourceData) (key : string) : value :=
  match raw_schema d !! key with
  | None => VNil
  | Some s =>
      match raw_values d !! key with
      | Some v => v
      | None => default (zero_of (Type_ s)) (Default s)
      end
  end.

(** [d.GetOk(key)] by name: the value, and whether it is other than the
    zero value. *)
Definition RawGetOk (d : RawResourceData) (key : string) : value * bool :=
  let v := RawGet d key in
  (v, negb (is_zero v)).

(** Type assertions [v.(string)], [v.(int)], [v.(bool)] and [v.(float64)];
    [None] stands for the run-time panic of a failed assertion. *)
Definition assert_string (v : value) : option string :=
  match v with VString s => Some s | _ => None end.

Definition assert_int (v : value) : option Z :=
  match v with VInt z => Some z | _ => None end.

Definition assert_bool (v : value) : option bool :=
  match v with VBool b => Some b | _ => None end.

Definition assert_float64 (v : value) : option float64 :=
  match v with VFloat f => Some f | _ => None end.

(** [val == "Scale"]: an interface value equals a string when it holds
    that very string. *)
Definition value_eq_string (v : value) (s : string) : bool :=
  match v with
  | VString s' => bool_decide (s' = s)
  | _ => false
  end.

(** A value has the Go type of a [ValueType]. *)
Definition has_type (v : value) (ty : ValueType) : bool :=
  match v, ty with
  | VString _, TypeString => true
  | VInt _, TypeInt => true
  | VFloat _, TypeFloat => true
  | VBool _, TypeBool => true
  | VSet _, TypeSet => true
  | _, _ => false
  end.

(** The resource data of a single value chart: it carries the schema of
    this resource and every value that is set has the type its field
    declares. *)
Definition well_typed (d : RawResourceData) : Prop :=
  raw_schema d = singleValueChartResource ∧
  map_Forall
    (λ k v, ∀ s, singleValueChartResource !! k = Some s →
                 has_type v (Type_ s) = true)
    (raw_values d).

(** The record view of resource data read by key. *)
Definition typed_color_scale (m : gmap string value) : ColorScale :=
  mkColorScale (default "" (m !! "color" ≫= assert_string))
    (m !! "gt" ≫= assert_float64) (m !! "gte" ≫= assert_float64)
    (m !! "lt" ≫= assert_float64) (m !! "lte" ≫= assert_float64).

Definition typed_viz_option (m : gmap string value) : VizOption :=
  mkVizOption (default "" (m !! "label" ≫= assert_string))
    (m !! "color" ≫= assert_string) (m !! "value_unit" ≫= assert_string)
    (m !! "value_prefix" ≫= assert_string)
    (m !! "value_suffix" ≫= assert_string).

Definition typed_set {A : Type} (f : gmap string value → A)
    (v : option value) : list A :=
  match v with
  | Some (VSet elems) => f <$> elems
  | _ => []
  end.

Definition typed (d : RawResourceData) : ResourceData :=
  let values := raw_values d in
  mkResourceData (raw_Id d)
    (default "" (values !! "name" ≫= assert_string))
    (default "" (values !! "program_text" ≫= assert_string))
    (values !! "description" ≫= assert_string)
    (values !! "unit_prefix" ≫= assert_string)
    (values !! "color_by" ≫= assert_string)
    (values !! "max_delay" ≫= assert_int)
    (values !! "refresh_interval" ≫= assert_int)
    (values !! "max_precision" ≫= assert_int)
    (values !! "is_timestamp_hidden" ≫= assert_bool)
    (values !! "show_spark_line" ≫= assert_bool)
    (values !! "secondary_visualization" ≫= assert_string)
    (typed_set typed_color_scale (values !! "color_scale"))
    (typed_set typed_viz_option (values !! "viz_options"))
    (values !! "synced" ≫= assert_bool)
    (values !! "last_updated" ≫= assert_float64)
    (values !! "url" ≫= assert_string).

(** ** Sample inputs for the closed examples *)

(** Only the two required fields are set. *)
Definition bare_chart : ResourceData :=
  mkResourceData "" "x" "data('cpu').publish()" None None None None None
    None None None None [] [] None None None.

(** The end-to-end scenario of the spec: [max_delay = 5] and
    [show_spark_line = true] on top of the required fields. *)
Definition scenario_chart : ResourceData :=
  mkResourceData "" "x" "data('cpu').publish()" None None None (Some 5%Z)
    None None None (Some true) None [] [] None None None.

(** The JSON object the spec gives for the scenario. *)
Definition scenario_payload_in_spec : gmap string json :=
  <["name" := JStr "x"]>
    (<["programText" := JStr "data('cpu').publish()"]>
       (<["options" :=
            JObj (<["type" := JStr "SingleValue"]>
                    (<["programOptions" :=
                         JObj (<["maxDelay" := JInt 5000]> ∅)]>
                       (<["timestampHidden" := JBool false]>
                          (<["showSparkLine" := JBool true]> ∅))))]> ∅)).

(** [color_by = "Scale"] with an empty [color_scale] set. *)
Definition scale_without_ranges : ResourceData :=
  mkResourceData "" "x" "data('cpu').publish()" None None (Some "Scale")
    None None None None None None [] [] None None None.

(** [max_delay] explicitly set to zero. *)
Definition zero_delay_chart : ResourceData :=
  mkResourceData "" "x" "data('cpu').publish()" None None None (Some 0%Z)
    None None None None None [] [] None None None.

(** [refresh_interval] explicitly set to zero. *)
Definition zero_refresh_chart : ResourceData :=
  mkResourceData "" "x" "data('cpu').publish()" None None None None
    (Some 0%Z) None None None None [] [] None None None.

(** The scenario chart once it is managed: identifier and computed
    fields are set, the configurable fields are the same. *)
Definition managed_chart : ResourceData :=
  mkResourceData "DiWnTp8AgAA" "x" "data('cpu').publish()" None None None
    (Some 5%Z) None None None (Some true) None [] [] (Some true)
    (Some PrimFloat.zero) (Some "https://app.signalfx.com/chart/DiWnTp8AgAA").

(** A chart with every optional scalar set, one colour range and one
    per-signal option. *)
Definition full_chart : ResourceData :=
  mkResourceData "" "x" "data('cpu').publish()" (Some "cpu load")
    (Some "Binary") (Some "Scale") (Some 5%Z) (Some 10%Z) (Some 3%Z)
    (Some true) (Some true) (Some "Radial")
    [mkColorScale "blue" None None None None]
    [mkVizOption "cpu" None None None None] None None None.

(** The same chart coloured by dimension. *)
Definition dimension_chart : ResourceData :=
  mkResourceData "" "x" "data('cpu').publish()" (Some "cpu load")
    (Some "Binary") (Some "Dimension") (Some 5%Z) (Some 10%Z) (Some 3%Z)
    (Some true) (Some true) (Some "Radial")
    [mkColorScale "blue" None None None None]
    [mkVizOption "cpu" None None None None] None None None.

Definition sample_config : signalfxConfig :=
  mkConfig "https://api.signalfx.com" "secret" "https://app.signalfx.com".

(** Stand-ins for the collaborators. *)
Definition sample_CHART_API_PATH : string := "/v2/chart".

Definition sample_CHART_APP_PATH : string := "/chart/".

Definition sample_colorScaleOption (c : ColorScale) : json :=
  JObj (<["color" := JStr (cs_color c)]> ∅).

Definition sample_perSignalVizOption (v : VizOption) : json :=
  JObj (<["label" := JStr (vo_label v)]> ∅).

Definition sample_Marshal (j : json) : bytes + error :=
  match json_path ["name"] j with
  | Some (JStr s) => inl (String.list_byte_of_string s)
  | _ => inr "json: unsupported value"
  end.

Definition failing_Marshal (j : json) : bytes + error :=
  inr "json: unsupported value".

Definition sample_buildURL (base path : string)
    (params : gmap string string) : string + error :=
  inl (base +:+ path).

Definition failing_buildURL (base path : string)
    (params : gmap string string) : string + error :=
  inr "parse error".

Definition sample_buildAppURL (base fragment : string) : string + error :=
  inl (base +:+ fragment).

Definition failing_buildAppURL (base fragment : string) : string + error :=
  inr "parse error".

Definition sample_remote_create (url authToken : string) (payload : bytes)
  : Created + error :=
  inl (mkCreated "DiWnTp8AgAA" PrimFloat.zero).

Definition failing_remote_create (url authToken : string) (payload : bytes)
  : Created + error :=
  inr "SignalFx returned status 500".

Definition sample_remote_update (url authToken : string) (payload : bytes)
  : float64 + error :=
  inl PrimFloat.zero.

(** Every optional scalar explicitly set to the zero value of its type. *)
Definition all_zero_chart : ResourceData :=
  mkResourceData "" "x" "data('cpu').publish()" (Some "") (Some "")
    (Some "") (Some 0%Z) (Some 0%Z) (Some 0%Z) (Some false) (Some false)
    (Some "") [] [] None None None.

(** A refresh interval whose product with 1000 exceeds the largest
    64-bit integer, 9223372036854775807. *)
Definition huge_refresh_chart : ResourceData :=
  mkResourceData "" "x" "data('cpu').publish()" None None None None
    (Some 9223372036854776%Z) None None None None [] [] None None None.

Definition failing_resourceRead (url sfxToken : string) (d : ResourceData)
  : Outcome :=
  mkOutcome d [] (Some "SignalFx returned status 404").

Definition sample_resourceDelete (url sfxToken : string) (d : ResourceData)
  : Outcome :=
  mkOutcome (SetId d "") [] None.

(** A delay whose product with 1000 exceeds the largest 64-bit integer. *)
Definition huge_delay_chart : ResourceData :=
  mkResourceData "" "x" "data('cpu').publish()" None None None
    (Some 9223372036854776%Z) None None None None None [] [] None None None.

(** The scenario of the spec as resource data read by key. *)
Definition scenario_raw : RawResourceData :=
  mkRaw singleValueChartResource
    (<["name" := VString "x"]>
       (<["program_text" := VString "data('cpu').publish()"]>
          (<["max_delay" := VInt 5]>
             (<["show_spark_line" := VBool true]> ∅))))
    "".

Section SingleValueChart.

Set Default Proof Using "Type".

(** ** Helpers of the package that live in other files *)

(** The payload object of one [color_scale] element and of one
    [viz_options] element.  The keys they use are fixed in files that
    are not part of this development. *)
Variable colorScaleOption : ColorScale → json.
Variable perSignalVizOption : VizOption → json.

(** [json.Marshal] of Go's standard library. *)
Variable json_Marshal : json → bytes + error.

(** Modelled from the spec: [getColorScaleOptions], defined in another
    file of the package.  Section 4.2, step 3: every instance of the
    nested block is mapped into its own payload map and the maps are
    collected into a list. *)
Definition getColorScaleOptions (d : ResourceData) : list json :=
  colorScaleOption <$> color_scale d.

(** Modelled from the spec: [getPerSignalVizOptions], defined in another
    file of the package.  Section 4.2, step 3, as above. *)
Definition getPerSignalVizOptions (d : ResourceData) : list json :=
  perSignalVizOption <$> viz_options d.

(** ** Payload construction (lines 176-233 of the source) *)

Definition getSingleValueChartOptions (d : ResourceData) : gmap string json :=
  let viz : gmap string json := ∅ in
  let viz := <["type" := JStr "SingleValue"]> viz in
  let viz :=
    match GetOk "" (unit_prefix d) with
    | (val, true) => <["unitPrefix" := JStr val]> viz
    | (_, false) => viz
    end in
  let viz :=
    match GetOk "" (color_by d) with
    | (val, true) =>
        if decide (val = "Scale") then
          let colorScaleOptions := getColorScaleOptions d in
          if decide (0 < length colorScaleOptions) then
            let viz := <["colorBy" := JStr "Scale"]> viz in
            <["colorScale2" := JArr colorScaleOptions]> viz
          else viz
        else <["colorBy" := JStr val]> viz
    | (_, false) => viz
    end in
  let programOptions : gmap string json := ∅ in
  let viz :=
    match GetOk 0%Z (max_delay d) with
    | (val, true) =>
        let programOptions :=
          <["maxDelay" := JInt (int_mul val 1000)]> programOptions in
        <["programOptions" := JObj programOptions]> viz
    | (_, false) => viz
    end in
  let viz :=
    match GetOk 0%Z (refresh_interval d) with
    | (refreshInterval, true) =>
        <["refreshInterval" := JInt (int_mul refreshInterval 1000)]> viz
    | (_, false) => viz
    end in
  let viz :=
    match GetOk 0%Z (max_precision d) with
    | (maxPrecision, true) => <["maximumPrecision" := JInt maxPrecision]> viz
    | (_, false) => viz
    end in
  let viz :=
    match GetOk "" (secondary_visualization d) with
    | (val, true) =>
        let secondaryVisualization := val in
        if decide (secondaryVisualization ≠ "") then
          <["secondaryVisualization" := JStr secondaryVisualization]> viz
        else viz
    | (_, false) => viz
    end in
  let viz :=
    <["timestampHidden" := JBool (Get false (is_timestamp_hidden d))]> viz in
  let viz :=
    <["showSparkLine" := JBool (Get false (show_spark_line d))]> viz in
  viz.

(** The options object once [getPayloadSingleValueChart] has added the
    per-signal options to it (lines 183-186). *)
Definition payloadOptions (d : ResourceData) : gmap string json :=
  let viz := getSingleValueChartOptions d in
  let vizOptions := getPerSignalVizOptions d in
  if decide (0 < length vizOptions) then
    <["publishLabelOptions" := JArr vizOptions]> viz
  else viz.

(** The map [payload] at the point where it is handed to [json.Marshal]
    (lines 177-189). *)
Definition payloadSingleValueChart (d : ResourceData) : gmap string json :=
  let payload : gmap string json :=
    <["programText" := JStr (program_text d)]>
      (<["description" := JStr (Get "" (description d))]>
         (<["name" := JStr (name d)]> ∅)) in
  let viz := payloadOptions d in
  if decide (0 < size viz) then <["options" := JObj viz]> payload
  else payload.

Definition getPayloadSingleValueChart (d : ResourceData) : bytes + error :=
  json_Marshal (JObj (payloadSingleValueChart d)).

(** ** The external collaborators of the reconciliation operations *)

(** Constants and URL builders of the package, declared in other files. *)
Variable CHART_API_PATH : string.
Variable CHART_APP_PATH : string.
Variable buildURL : string → string → gmap string string → string + error.
Variable buildAppURL : string → string → string + error.

(** The remote system behind the HTTP transport: what it answers to a
    create and to an update submitted with a URL, a token and a payload.
    A successful answer carries the last-modified timestamp, which only
    the remote system can supply. *)
Variable remote_create : string → string → bytes → Created + error.
Variable remote_update : string → string → bytes → float64 + error.

(** Modelled from the spec: [resourceCreate], defined in another file of
    the package.  Section 4.3, Create: submit; on success the instance
    becomes managed, with the identifier and the remote-supplied
    computed field set; on failure it stays as it was and the error is
    surfaced. *)
Definition resourceCreate (url sfxToken : string) (payload : bytes)
    (d : ResourceData) : Outcome :=
  match remote_create url sfxToken payload with
  | inl r =>
      mkOutcome
        (Set_last_updated (SetId d (created_id r)) (created_lastUpdated r))
        [CreateCall url sfxToken payload] None
  | inr e => mkOutcome d [CreateCall url sfxToken payload] (Some e)
  end.

(** Modelled from the spec: [resourceUpdate], defined in another file of
    the package.  Section 4.3, Update: submit; on success refresh the
    computed fields; section 7: if the update fails, local state is not
    refreshed. *)
Definition resourceUpdate (url sfxToken : string) (payload : bytes)
    (d : ResourceData) : Outcome :=
  match remote_update url sfxToken payload with
  | inl t => mkOutcome (Set_last_updated d t) [UpdateCall url sfxToken payload] None
  | inr e => mkOutcome d [UpdateCall url sfxToken payload] (Some e)
  end.

(** ** Create and Update (lines 235-257 and 270-283 of the source) *)

Definition singlevaluechartCreate (d : ResourceData) (meta : signalfxConfig)
  : Outcome :=
  let config := meta in
  match getPayloadSingleValueChart d with
  | inr e => mkOutcome d [] (Some ("Failed creating json payload: " +:+ e))
  | inl payload =>
      match buildURL (APIURL config) CHART_API_PATH ∅ with
      | inr e =>
          mkOutcome d []
            (Some ("[DEBUG] SignalFx: Error constructing API URL: " +:+ e))
      | inl url =>
          let r := resourceCreate url (AuthToken config) payload d in
          match err r with
          | Some e => mkOutcome (data r) (calls r) (Some e)
          | None =>
              let d := data r in
              match buildAppURL (CustomAppURL config) (CHART_APP_PATH +:+ Id d) with
              | inr e => mkOutcome d (calls r) (Some e)
              | inl appURL => mkOutcome (Set_url d appURL) (calls r) None
              end
          end
      end
  end.

Definition singlevaluechartUpdate (d : ResourceData) (meta : signalfxConfig)
  : Outcome :=
  let config := meta in
  match getPayloadSingleValueChart d with
  | inr e => mkOutcome d [] (Some ("Failed creating json payload: " +:+ e))
  | inl payload =>
      let path := CHART_API_PATH +:+ "/" +:+ Id d in
      match buildURL (APIURL config) path ∅ with
      | inr e =>
          mkOutcome d []
            (Some ("[DEBUG] SignalFx: Error constructing API URL: " +:+ e))
      | inl url => resourceUpdate url (AuthToken config) payload d
      end
  end.

(** ** Read and Delete (lines 259-268 and 285-294 of the source) *)

(** [resourceRead] and [resourceDelete], defined in another file of the
    package: each is handed the URL, the token and the resource data. *)
Variable resourceRead : string → string → ResourceData → Outcome.
Variable resourceDelete : string → string → ResourceData → Outcome.

Definition singlevaluechartRead (d : ResourceData) (meta : signalfxConfig)
  : Outcome :=
  let config := meta in
  let path := CHART_API_PATH +:+ "/" +:+ Id d in
  match buildURL (APIURL config) path ∅ with
  | inr e =>
      mkOutcome d []
        (Some ("[DEBUG] SignalFx: Error constructing API URL: " +:+ e))
  | inl url => resourceRead url (AuthToken config) d
  end.

Definition singlevaluechartDelete (d : ResourceData) (meta : signalfxConfig)
  : Outcome :=
  let config := meta in
  let path := CHART_API_PATH +:+ "/" +:+ Id d in
  match buildURL (APIURL config) path ∅ with
  | inr e =>
      mkOutcome d []
        (Some ("[DEBUG] SignalFx: Error constructing API URL: " +:+ e))
  | inl url => resourceDelete url (AuthToken config) d
  end.

(** ** Payload construction over resource data read by key

    The two functions of lines 176-233 once more, this time with every
    [d.Get] and [d.GetOk] by field name and every type assertion in
    place; [None] is a panic.  The two helpers, which live in other
    files, are handed the record view of the resource data. *)

Definition getSingleValueChartOptions_raw (d : RawResourceData)
  : option (gmap string json) :=
  let viz : gmap string json := ∅ in
  let viz := <["type" := JStr "SingleValue"]> viz in
  viz ←
    match RawGetOk d "unit_prefix" with
    | (val, true) => s ← assert_string val; Some (<["unitPrefix" := JStr s]> viz)
    | (_, false) => Some viz
    end;
  viz ←
    match RawGetOk d "color_by" with
    | (val, true) =>
        if value_eq_string val "Scale" then
          let colorScaleOptions := getColorScaleOptions (typed d) in
          if decide (0 < length colorScaleOptions) then
            let viz := <["colorBy" := JStr "Scale"]> viz in
            Some (<["colorScale2" := JArr colorScaleOptions]> viz)
          else Some viz
        else s ← assert_string val; Some (<["colorBy" := JStr s]> viz)
    | (_, false) => Some viz
    end;
  let programOptions : gmap string json := ∅ in
  viz ←
    match RawGetOk d "max_delay" with
    | (val, true) =>
        z ← assert_int val;
        let programOptions :=
          <["maxDelay" := JInt (int_mul z 1000)]> programOptions in
        Some (<["programOptions" := JObj programOptions]> viz)
    | (_, false) => Some viz
    end;
  viz ←
    match RawGetOk d "refresh_interval" with
    | (refreshInterval, true) =>
        z ← assert_int refreshInterval;
        Some (<["refreshInterval" := JInt (int_mul z 1000)]> viz)
    | (_, false) => Some viz
    end;
  viz ←
    match RawGetOk d "max_precision" with
    | (maxPrecision, true) =>
        z ← assert_int maxPrecision;
        Some (<["maximumPrecision" := JInt z]> viz)
    | (_, false) => Some viz
    end;
  viz ←
    match RawGetOk d "secondary_visualization" with
    | (val, true) =>
        secondaryVisualization ← assert_string val;
        if decide (secondaryVisualization ≠ "") then
          Some (<["secondaryVisualization" := JStr secondaryVisualization]> viz)
        else Some viz
    | (_, false) => Some viz
    end;
  timestampHidden ← assert_bool (RawGet d "is_timestamp_hidden");
  let viz := <["timestampHidden" := JBool timestampHidden]> viz in
  showSparkLine ← assert_bool (RawGet d "show_spark_line");
  let viz := <["showSparkLine" := JBool showSparkLine]> viz in
  Some viz.

Definition payloadSingleValueChart_raw (d : RawResourceData)
  : option (gmap string json) :=
  name ← assert_string (RawGet d "name");
  description ← assert_string (RawGet d "description");
  programText ← assert_string (RawGet d "program_text");
  let payload : gmap string json :=
    <["programText" := JStr programText]>
      (<["description" := JStr description]>
         (<["name" := JStr name]> ∅)) in
  viz ← getSingleValueChartOptions_raw d;
  let vizOptions := getPerSignalVizOptions (typed d) in
  let viz :=
    if decide (0 < length vizOptions) then
      <["publishLabelOptions" := JArr vizOptions]> viz
    else viz in
  if decide (0 < size viz) then Some (<["options" := JObj viz]> payload)
  else Some payload.

Definition getPayloadSingleValueChart_raw (d : RawResourceData)
  : option (bytes + error) :=
  payload ← payloadSingleValueChart_raw d;
  Some (json_Marshal (JObj payload)).

(** * Properties *)

(** ** [GetOk] on set and unset fields *)

Lemma GetOk_None {A : Type} `{EqDecision A} (zero : A) :
  GetOk zero None = (zero, false).
Proof. reflexivity. Qed.

Lemma GetOk_Some_zero {A : Type} `{EqDecision A} (zero : A) :
  GetOk zero (Some zero) = (zero, false).
Proof. unfold GetOk. rewrite bool_decide_eq_false_2; [done | by intros Hne]. Qed.

Lemma GetOk_Some_ne {A : Type} `{EqDecision A} (zero v : A) :
  v ≠ zero → GetOk zero (Some v) = (v, true).
Proof. intros Hne. unfold GetOk. by rewrite bool_decide_eq_true_2. Qed.

(** ** Products that fit a Go [int] are not wrapped *)

Lemma wrap_int_in_range (z : Z) : in_int_range z → wrap_int z = z.
Proof.
  unfold in_int_range, wrap_int. intros Hz.
  rewrite Z.mod_small by lia. lia.
Qed.

(** ** Proof automation for lookups in a map built by successive inserts *)

Ltac walk :=
  repeat first
    [ rewrite lookup_insert_eq
    | rewrite lookup_insert_ne by done
    | rewrite lookup_empty
    | progress cbv zeta
    | case_match ].

(** Bring the [let]-bound stages of a function body into the context. *)
Ltac name_lets :=
  repeat match goal with
  | |- context G [let x := ?a in @?b x] =>
      let y := fresh x in
      pose (y := a);
      let g := context G [b y] in
      change g; cbv beta
  end.

(** A stage that does not touch the key looked up is stepped over. *)
Ltac frame :=
  match goal with
  | x := _ : gmap string json |- ?v !! ?k = _ =>
      tryif constr_eq x v then fail else
      (let H := fresh in
       assert (H : v !! k = x !! k) by (subst v; walk; done);
       rewrite H; clear H; try clear v)
  end.

Ltac stage :=
  match goal with
  | |- ?v !! _ = _ => is_var v; subst v; walk
  end.

Ltac options_lookup :=
  cbv beta delta [getSingleValueChartOptions]; name_lets;
  repeat first [ done | frame | stage ].

(** ** The options object, key by key *)

Lemma options_type (d : ResourceData) :
  getSingleValueChartOptions d !! "type" = Some (JStr "SingleValue").
Proof. options_lookup. Qed.

Lemma options_unitPrefix (d : ResourceData) :
  getSingleValueChartOptions d !! "unitPrefix" =
    match GetOk "" (unit_prefix d) with
    | (v, true) => Some (JStr v)
    | (_, false) => None
    end.
Proof. options_lookup. Qed.

Lemma options_colorBy (d : ResourceData) :
  getSingleValueChartOptions d !! "colorBy" =
    match GetOk "" (color_by d) with
    | (v, true) =>
        if decide (v = "Scale") then
          if decide (0 < length (getColorScaleOptions d)) then
            Some (JStr "Scale")
          else None
        else Some (JStr v)
    | (_, false) => None
    end.
Proof. options_lookup. Qed.

Lemma options_colorScale2 (d : ResourceData) :
  getSingleValueChartOptions d !! "colorScale2" =
    match GetOk "" (color_by d) with
    | (v, true) =>
        if decide (v = "Scale") then
          if decide (0 < length (getColorScaleOptions d)) then
            Some (JArr (getColorScaleOptions d))
          else None
        else None
    | (_, false) => None
    end.
Proof. options_lookup. Qed.

Lemma options_programOptions (d : ResourceData) :
  getSingleValueChartOptions d !! "programOptions" =
    match GetOk 0%Z (max_delay d) with
    | (v, true) => Some (JObj (<["maxDelay" := JInt (int_mul v 1000)]> ∅))
    | (_, false) => None
    end.
Proof. options_lookup. Qed.

Lemma options_refreshInterval (d : ResourceData) :
  getSingleValueChartOptions d !! "refreshInterval" =
    match GetOk 0%Z (refresh_interval d) with
    | (v, true) => Some (JInt (int_mul v 1000))
    | (_, false) => None
    end.
Proof. options_lookup. Qed.

Lemma options_maximumPrecision (d : ResourceData) :
  getSingleValueChartOptions d !! "maximumPrecision" =
    match GetOk 0%Z (max_precision d) with
    | (v, true) => Some (JInt v)
    | (_, false) => None
    end.
Proof. options_lookup. Qed.

Lemma options_secondaryVisualization (d : ResourceData) :
  getSingleValueChartOptions d !! "secondaryVisualization" =
    match GetOk "" (secondary_visualization d) with
    | (v, true) => if decide (v ≠ "") then Some (JStr v) else None
    | (_, false) => None
    end.
Proof. options_lookup. Qed.

Lemma options_timestampHidden (d : ResourceData) :
  getSingleValueChartOptions d !! "timestampHidden" =
    Some (JBool (Get false (is_timestamp_hidden d))).
Proof. options_lookup. Qed.

Lemma options_showSparkLine (d : ResourceData) :
  getSingleValueChartOptions d !! "showSparkLine" =
    Some (JBool (Get false (show_spark_line d))).
Proof. options_lookup. Qed.

Lemma options_publishLabelOptions (d : ResourceData) :
  getSingleValueChartOptions d !! "publishLabelOptions" = None.
Proof. options_lookup. Qed.


(** ** The payload map *)

Lemma payloadOptions_lookup_ne (d : ResourceData) (k : string) :
  k ≠ "publishLabelOptions" →
  payloadOptions d !! k = getSingleValueChartOptions d !! k.
Proof.
  intros Hk. unfold payloadOptions. cbv zeta.
  case_decide; [by rewrite lookup_insert_ne | done].
Qed.

Lemma payloadOptions_publishLabelOptions (d : ResourceData) :
  payloadOptions d !! "publishLabelOptions" =
    if decide (0 < length (getPerSignalVizOptions d)) then
      Some (JArr (getPerSignalVizOptions d))
    else None.
Proof.
  unfold payloadOptions. cbv zeta. case_decide.
  - by rewrite lookup_insert_eq.
  - apply options_publishLabelOptions.
Qed.

Lemma payloadOptions_nonempty (d : ResourceData) : 0 < size (payloadOptions d).
Proof.
  apply Nat.neq_0_lt_0.
  apply (map_size_ne_0_lookup_2 _ "type").
  rewrite payloadOptions_lookup_ne by done. by rewrite options_type.
Qed.

Lemma payload_unfold (d : ResourceData) :
  payloadSingleValueChart d =
    <["options" := JObj (payloadOptions d)]>
      (<["programText" := JStr (program_text d)]>
         (<["description" := JStr (Get "" (description d))]>
            (<["name" := JStr (name d)]> ∅))).
Proof.
  unfold payloadSingleValueChart. cbv zeta.
  case_decide as Hsize; [done|].
  destruct Hsize. apply payloadOptions_nonempty.
Qed.

Lemma json_path_top (d : ResourceData) (k : string) :
  json_path [k] (JObj (payloadSingleValueChart d)) =
    payloadSingleValueChart d !! k.
Proof. simpl. by destruct (payloadSingleValueChart d !! k). Qed.

Lemma json_path_options (d : ResourceData) (k : string) :
  json_path ["options"; k] (JObj (payloadSingleValueChart d)) =
    payloadOptions d !! k.
Proof.
  simpl. rewrite payload_unfold, lookup_insert_eq. simpl.
  by destruct (payloadOptions d !! k).
Qed.

Lemma json_path_option (d : ResourceData) (k : string) :
  k ≠ "publishLabelOptions" →
  json_path ["options"; k] (JObj (payloadSingleValueChart d)) =
    getSingleValueChartOptions d !! k.
Proof.
  intros Hk. by rewrite json_path_options, payloadOptions_lookup_ne.
Qed.

Lemma json_path_name (d : ResourceData) :
  json_path ["name"] (JObj (payloadSingleValueChart d)) = Some (JStr (name d)).
Proof. rewrite json_path_top, payload_unfold. by walk. Qed.

Lemma json_path_programText (d : ResourceData) :
  json_path ["programText"] (JObj (payloadSingleValueChart d)) =
    Some (JStr (program_text d)).
Proof. rewrite json_path_top, payload_unfold. by walk. Qed.

Lemma json_path_description (d : ResourceData) :
  json_path ["description"] (JObj (payloadSingleValueChart d)) =
    Some (JStr (Get "" (description d))).
Proof. rewrite json_path_top, payload_unfold. by walk. Qed.

Lemma getColorScaleOptions_length (d : ResourceData) :
  length (getColorScaleOptions d) = length (color_scale d).
Proof. apply length_fmap. Qed.

Lemma getPerSignalVizOptions_length (d : ResourceData) :
  length (getPerSignalVizOptions d) = length (viz_options d).
Proof. apply length_fmap. Qed.


(** ** Claims about the payload *)

Local Abbreviation payload_of d := (JObj (payloadSingleValueChart d)).

Ltac option_key :=
  rewrite json_path_option by done;
  first
    [ rewrite options_unitPrefix | rewrite options_colorBy
    | rewrite options_colorScale2 | rewrite options_programOptions
    | rewrite options_refreshInterval | rewrite options_maximumPrecision
    | rewrite options_secondaryVisualization
    | rewrite options_timestampHidden | rewrite options_showSparkLine
    | rewrite options_type ].

Ltac field_unset :=
  intros [-> | ->];
  [ rewrite GetOk_None | rewrite GetOk_Some_zero ]; reflexivity.

(** C1, amended.  For the scenario of the spec (name "x", program text
    "data('cpu').publish()", [max_delay = 5], [show_spark_line = true],
    nothing else set) the payload is exactly the JSON object of the spec
    with one more key, "description", bound to the empty string: the map
    is equal to that object, so no other key is added and none is
    missing, and these are the bytes [json.Marshal] is asked for. *)
Theorem C1_scenario_payload :
  payloadSingleValueChart scenario_chart =
    <["description" := JStr ""]> scenario_payload_in_spec ∧
  scenario_payload_in_spec !! "description" = None ∧
  getPayloadSingleValueChart scenario_chart =
    json_Marshal (JObj (<["description" := JStr ""]> scenario_payload_in_spec)).
Proof.
  assert (payloadSingleValueChart scenario_chart =
            <["description" := JStr ""]> scenario_payload_in_spec) as Heq
    by (vm_compute; reflexivity).
  split; [exact Heq|]. split; [reflexivity|].
  unfold getPayloadSingleValueChart. by rewrite Heq.
Qed.

(** C2, amended.  For every configuration the payload carries the
    required fields under "name" and "programText", and it leaves out
    "unitPrefix", "colorBy", "colorScale2", "programOptions",
    "refreshInterval", "maximumPrecision", "secondaryVisualization" and
    "publishLabelOptions" when the field behind the key was never set.
    Three optional fields are always sent: "description", "timestampHidden"
    and "showSparkLine" carry the zero value of their type when unset.
    A field read with [GetOk] that was explicitly set to the zero value
    of its type is left out just like an unset one, so the payload does
    not tell the two apart. *)
Theorem C2_unset_fields (d : ResourceData) :
  json_path ["name"] (payload_of d) = Some (JStr (name d)) ∧
  json_path ["programText"] (payload_of d) = Some (JStr (program_text d)) ∧
  (unit_prefix d = None ∨ unit_prefix d = Some "" →
     json_path ["options"; "unitPrefix"] (payload_of d) = None) ∧
  (color_by d = None ∨ color_by d = Some "" →
     json_path ["options"; "colorBy"] (payload_of d) = None ∧
     json_path ["options"; "colorScale2"] (payload_of d) = None) ∧
  (max_delay d = None ∨ max_delay d = Some 0%Z →
     json_path ["options"; "programOptions"] (payload_of d) = None) ∧
  (refresh_interval d = None ∨ refresh_interval d = Some 0%Z →
     json_path ["options"; "refreshInterval"] (payload_of d) = None) ∧
  (max_precision d = None ∨ max_precision d = Some 0%Z →
     json_path ["options"; "maximumPrecision"] (payload_of d) = None) ∧
  (secondary_visualization d = None ∨ secondary_visualization d = Some "" →
     json_path ["options"; "secondaryVisualization"] (payload_of d) = None) ∧
  (color_scale d = [] →
     json_path ["options"; "colorScale2"] (payload_of d) = None) ∧
  (viz_options d = [] →
     json_path ["options"; "publishLabelOptions"] (payload_of d) = None) ∧
  (description d = None →
     json_path ["description"] (payload_of d) = Some (JStr "")) ∧
  (is_timestamp_hidden d = None →
     json_path ["options"; "timestampHidden"] (payload_of d) =
       Some (JBool false)) ∧
  (show_spark_line d = None →
     json_path ["options"; "showSparkLine"] (payload_of d) =
       Some (JBool false)).
Proof.
  split; [apply json_path_name|]. split; [apply json_path_programText|].
  split; [option_key; field_unset|].
  split; [intros H; split; option_key; revert H; field_unset|].
  split; [option_key; field_unset|].
  split; [option_key; field_unset|].
  split; [option_key; field_unset|].
  split; [option_key; field_unset|].
  split.
  { intros Hcs. option_key.
    destruct (GetOk "" (color_by d)) as [v []]; [|done].
    case_decide; [|done]. case_decide as Hlen; [|done].
    rewrite getColorScaleOptions_length, Hcs in Hlen. by inversion Hlen. }
  split.
  { intros Hviz. rewrite json_path_options, payloadOptions_publishLabelOptions.
    case_decide as Hlen; [|done].
    rewrite getPerSignalVizOptions_length, Hviz in Hlen. by inversion Hlen. }
  split; [intros Hd; by rewrite json_path_description, Hd|].
  split; intros Hb; option_key; by rewrite Hb.
Qed.


(** C3, amended.  When [color_by] is "Scale" and the [color_scale] set
    has at least one element, the options object carries "colorBy" =
    "Scale" together with the list of colour ranges under "colorScale2".
    When [color_by] is "Scale" and [color_scale] is empty, it carries
    neither key.  When [color_by] is any other non-empty string, it
    carries that string under "colorBy" and no "colorScale2". *)
Theorem C3_color_by_modes (d : ResourceData) :
  (color_by d = Some "Scale" → color_scale d ≠ [] →
     json_path ["options"; "colorBy"] (payload_of d) = Some (JStr "Scale") ∧
     json_path ["options"; "colorScale2"] (payload_of d) =
       Some (JArr (getColorScaleOptions d))) ∧
  (color_by d = Some "Scale" → color_scale d = [] →
     json_path ["options"; "colorBy"] (payload_of d) = None ∧
     json_path ["options"; "colorScale2"] (payload_of d) = None) ∧
  (∀ v, color_by d = Some v → v ≠ "Scale" → v ≠ "" →
     json_path ["options"; "colorBy"] (payload_of d) = Some (JStr v) ∧
     json_path ["options"; "colorScale2"] (payload_of d) = None).
Proof.
  split; [|split].
  - intros Hby Hcs.
    assert (0 < length (getColorScaleOptions d)) as Hlen.
    { rewrite getColorScaleOptions_length.
      destruct (color_scale d); [done | simpl; apply Nat.lt_0_succ]. }
    split; option_key; rewrite Hby, GetOk_Some_ne by done;
      rewrite decide_True by done; by rewrite decide_True.
  - intros Hby Hcs.
    assert (¬ 0 < length (getColorScaleOptions d)) as Hlen.
    { rewrite getColorScaleOptions_length, Hcs. apply Nat.lt_irrefl. }
    split; option_key; rewrite Hby, GetOk_Some_ne by done;
      rewrite decide_True by done; by rewrite decide_False.
  - intros v Hby Hscale Hempty.
    split; option_key; rewrite Hby, GetOk_Some_ne by done;
      by rewrite decide_False.
Qed.

(** C4, amended.  When [max_delay] (respectively [refresh_interval]) is
    set to a non-zero number of seconds [s] whose product with 1000 fits
    a Go [int], the payload carries options.programOptions.maxDelay
    (respectively options.refreshInterval) = s * 1000.  When either is
    set to 0 its key is left out, as for an unset field.  The third
    integer field, [max_precision], is not a duration: a non-zero value
    is carried unchanged under options.maximumPrecision. *)
Theorem C4_seconds_to_milliseconds (d : ResourceData) :
  (∀ s, max_delay d = Some s → s ≠ 0%Z → in_int_range (s * 1000) →
     json_path ["options"; "programOptions"; "maxDelay"] (payload_of d) =
       Some (JInt (s * 1000))) ∧
  (∀ s, refresh_interval d = Some s → s ≠ 0%Z → in_int_range (s * 1000) →
     json_path ["options"; "refreshInterval"] (payload_of d) =
       Some (JInt (s * 1000))) ∧
  (∀ p, max_precision d = Some p → p ≠ 0%Z →
     json_path ["options"; "maximumPrecision"] (payload_of d) =
       Some (JInt p)) ∧
  (max_delay d = Some 0%Z →
     json_path ["options"; "programOptions"] (payload_of d) = None) ∧
  (refresh_interval d = Some 0%Z →
     json_path ["options"; "refreshInterval"] (payload_of d) = None).
Proof.
  split; [|split; [|split; [|split]]].
  - intros s Hs Hne Hrange.
    assert (json_path ["options"; "programOptions"] (payload_of d) =
              Some (JObj (<["maxDelay" := JInt (s * 1000)]> ∅))) as Hpo.
    { option_key. rewrite Hs, GetOk_Some_ne by done.
      unfold int_mul. by rewrite wrap_int_in_range. }
    simpl in *. destruct (payloadSingleValueChart d !! "options") as [[]|];
      simpl in *; try done.
    destruct (m !! "programOptions") as [po|]; simpl in *; [|done].
    by simplify_eq.
  - intros s Hs Hne Hrange. option_key. rewrite Hs, GetOk_Some_ne by done.
    unfold int_mul. by rewrite wrap_int_in_range.
  - intros p Hp Hne. option_key. by rewrite Hp, GetOk_Some_ne.
  - intros Hs. option_key. by rewrite Hs, GetOk_Some_zero.
  - intros Hs. option_key. by rewrite Hs, GetOk_Some_zero.
Qed.

(** C5.  When the [color_scale] set has no element the key "colorScale2"
    is absent from the options object, and when the [viz_options] set
    has no element the key "publishLabelOptions" is absent.  Neither key
    is ever bound to an empty list, whatever the configuration. *)
Theorem C5_empty_blocks_omitted (d : ResourceData) :
  (color_scale d = [] →
     json_path ["options"; "colorScale2"] (payload_of d) = None) ∧
  (viz_options d = [] →
     json_path ["options"; "publishLabelOptions"] (payload_of d) = None) ∧
  json_path ["options"; "colorScale2"] (payload_of d) ≠ Some (JArr []) ∧
  json_path ["options"; "publishLabelOptions"] (payload_of d) ≠ Some (JArr []).
Proof.
  split; [|split; [|split]].
  - intros Hcs. option_key.
    destruct (GetOk "" (color_by d)) as [v []]; [|done].
    case_decide; [|done]. case_decide as Hlen; [|done].
    rewrite getColorScaleOptions_length, Hcs in Hlen. by inversion Hlen.
  - intros Hviz. rewrite json_path_options, payloadOptions_publishLabelOptions.
    case_decide as Hlen; [|done].
    rewrite getPerSignalVizOptions_length, Hviz in Hlen. by inversion Hlen.
  - option_key.
    destruct (GetOk "" (color_by d)) as [v []]; [|done].
    case_decide; [|done]. case_decide as Hlen; [|done].
    intros [= Hnil]. rewrite Hnil in Hlen. by inversion Hlen.
  - rewrite json_path_options, payloadOptions_publishLabelOptions.
    case_decide as Hlen; [|done].
    intros [= Hnil]. rewrite Hnil in Hlen. by inversion Hlen.
Qed.

(** C9, amended.  For every input the payload has the key "options", and
    the options object has "type" = "SingleValue", "timestampHidden" and
    "showSparkLine"; the two booleans are there with the value false when
    [is_timestamp_hidden] and [show_spark_line] were never set.  Every
    other optional field is left out of the payload when unset, with one
    exception: "description" is also always sent, as the empty string
    when unset. *)
Theorem C9_options_always_present (d : ResourceData) :
  json_path ["options"] (payload_of d) = Some (JObj (payloadOptions d)) ∧
  json_path ["options"; "type"] (payload_of d) = Some (JStr "SingleValue") ∧
  json_path ["options"; "timestampHidden"] (payload_of d) =
    Some (JBool (Get false (is_timestamp_hidden d))) ∧
  json_path ["options"; "showSparkLine"] (payload_of d) =
    Some (JBool (Get false (show_spark_line d))) ∧
  (is_timestamp_hidden d = None →
     json_path ["options"; "timestampHidden"] (payload_of d) =
       Some (JBool false)) ∧
  (show_spark_line d = None →
     json_path ["options"; "showSparkLine"] (payload_of d) =
       Some (JBool false)) ∧
  (unit_prefix d = None →
     json_path ["options"; "unitPrefix"] (payload_of d) = None) ∧
  (color_by d = None →
     json_path ["options"; "colorBy"] (payload_of d) = None) ∧
  (max_delay d = None →
     json_path ["options"; "programOptions"] (payload_of d) = None) ∧
  (refresh_interval d = None →
     json_path ["options"; "refreshInterval"] (payload_of d) = None) ∧
  (max_precision d = None →
     json_path ["options"; "maximumPrecision"] (payload_of d) = None) ∧
  (secondary_visualization d = None →
     json_path ["options"; "secondaryVisualization"] (payload_of d) = None) ∧
  (color_scale d = [] →
     json_path ["options"; "colorScale2"] (payload_of d) = None) ∧
  (viz_options d = [] →
     json_path ["options"; "publishLabelOptions"] (payload_of d) = None) ∧
  (description d = None →
     json_path ["description"] (payload_of d) = Some (JStr "")).
Proof.
  split; [rewrite json_path_top, payload_unfold; by walk|].
  split; [by option_key|]. split; [by option_key|]. split; [by option_key|].
  split; [intros Hb; option_key; by rewrite Hb|].
  split; [intros Hb; option_key; by rewrite Hb|].
  split; [intros Hf; option_key; by rewrite Hf|].
  split; [intros Hf; option_key; by rewrite Hf|].
  split; [intros Hf; option_key; by rewrite Hf|].
  split; [intros Hf; option_key; by rewrite Hf|].
  split; [intros Hf; option_key; by rewrite Hf|].
  split; [intros Hf; option_key; by rewrite Hf|].
  split.
  { intros Hcs. option_key.
    destruct (GetOk "" (color_by d)) as [v []]; [|done].
    case_decide; [|done]. case_decide as Hlen; [|done].
    rewrite getColorScaleOptions_length, Hcs in Hlen. by inversion Hlen. }
  split.
  { intros Hviz. rewrite json_path_options, payloadOptions_publishLabelOptions.
    case_decide as Hlen; [|done].
    rewrite getPerSignalVizOptions_length, Hviz in Hlen. by inversion Hlen. }
  intros Hd. by rewrite json_path_description, Hd.
Qed.

(** C10.  In every payload the options object has the key "colorScale2"
    exactly when it has "colorBy" with the value "Scale"; when [color_by]
    is "Scale" and the [color_scale] set is empty, neither key is in the
    payload. *)
Theorem C10_colorScale2_iff_colorBy_Scale (d : ResourceData) :
  (is_Some (json_path ["options"; "colorScale2"] (payload_of d)) ↔
     json_path ["options"; "colorBy"] (payload_of d) = Some (JStr "Scale")) ∧
  (color_by d = Some "Scale" → color_scale d = [] →
     json_path ["options"; "colorBy"] (payload_of d) = None ∧
     json_path ["options"; "colorScale2"] (payload_of d) = None).
Proof.
  split.
  - rewrite !json_path_option by done.
    rewrite options_colorScale2, options_colorBy.
    destruct (GetOk "" (color_by d)) as [v []].
    + case_decide as Hv.
      * case_decide; split; done.
      * split; [by intros [? ?] | intros [= ?]; done].
    + split; [by intros [? ?] | done].
  - intros Hby Hcs.
    assert (¬ 0 < length (getColorScaleOptions d)) as Hlen.
    { rewrite getColorScaleOptions_length, Hcs. apply Nat.lt_irrefl. }
    split; option_key; rewrite Hby, GetOk_Some_ne by done;
      rewrite decide_True by done; by rewrite decide_False.
Qed.


(** ** Claims about Create and Update *)

Ltac run_operation :=
  unfold singlevaluechartCreate, singlevaluechartUpdate,
    resourceCreate, resourceUpdate; cbv zeta.

(** C6, amended.  If Create fails while constructing the payload, while
    constructing the API URL, or in the remote create call, the resource
    data is handed back exactly as it came in: no identifier is assigned
    and nothing is persisted.  That covers every failure but one: Create
    also fails when the application URL cannot be built, which happens
    after the remote create call has succeeded, and then the resource
    data keeps the identifier and the timestamp that call has set. *)
Theorem C6_create_failure (d : ResourceData) (meta : signalfxConfig) :
  (∀ e, getPayloadSingleValueChart d = inr e →
     singlevaluechartCreate d meta =
       mkOutcome d [] (Some ("Failed creating json payload: " +:+ e))) ∧
  (∀ payload e,
     getPayloadSingleValueChart d = inl payload →
     buildURL (APIURL meta) CHART_API_PATH ∅ = inr e →
     singlevaluechartCreate d meta =
       mkOutcome d []
         (Some ("[DEBUG] SignalFx: Error constructing API URL: " +:+ e))) ∧
  (∀ payload url e,
     getPayloadSingleValueChart d = inl payload →
     buildURL (APIURL meta) CHART_API_PATH ∅ = inl url →
     remote_create url (AuthToken meta) payload = inr e →
     singlevaluechartCreate d meta =
       mkOutcome d [CreateCall url (AuthToken meta) payload] (Some e)) ∧
  (∀ e, err (singlevaluechartCreate d meta) = Some e →
     data (singlevaluechartCreate d meta) ≠ d →
     ∃ payload url r,
       getPayloadSingleValueChart d = inl payload ∧
       buildURL (APIURL meta) CHART_API_PATH ∅ = inl url ∧
       remote_create url (AuthToken meta) payload = inl r ∧
       buildAppURL (CustomAppURL meta) (CHART_APP_PATH +:+ created_id r) =
         inr e ∧
       data (singlevaluechartCreate d meta) =
         Set_last_updated (SetId d (created_id r)) (created_lastUpdated r)).
Proof.
  split; [|split; [|split]].
  - intros e He. run_operation. by rewrite He.
  - intros payload e Hp Hu. run_operation. by rewrite Hp, Hu.
  - intros payload url e Hp Hu Hr. run_operation. by rewrite Hp, Hu, Hr.
  - intros e. run_operation.
    destruct (getPayloadSingleValueChart d) as [payload|e1]; [|done].
    destruct (buildURL (APIURL meta) CHART_API_PATH ∅) as [url|e2]; [|done].
    destruct (remote_create url (AuthToken meta) payload) as [r|e3] eqn:Hr;
      simpl; [|done].
    destruct (buildAppURL (CustomAppURL meta) (CHART_APP_PATH +:+ created_id r))
      as [appURL|e4] eqn:Happ; simpl; [done|].
    intros [= ->] _. by exists payload, url, r.
Qed.

(** C7.  Whatever the resource state, every submission Update makes
    carries the bytes [getPayloadSingleValueChart] returns for the
    current field values, and so does every submission Create makes: for
    one state the two payloads are byte for byte the same.  When the
    payload and the URL can be built, Update does make one submission,
    with that full payload. *)
Theorem C7_update_submits_full_payload (d : ResourceData)
    (meta : signalfxConfig) :
  (∀ c, c ∈ calls (singlevaluechartUpdate d meta) →
     getPayloadSingleValueChart d = inl (call_payload c)) ∧
  (∀ c, c ∈ calls (singlevaluechartCreate d meta) →
     getPayloadSingleValueChart d = inl (call_payload c)) ∧
  (∀ cu cc,
     cu ∈ calls (singlevaluechartUpdate d meta) →
     cc ∈ calls (singlevaluechartCreate d meta) →
     call_payload cu = call_payload cc) ∧
  (∀ payload url,
     getPayloadSingleValueChart d = inl payload →
     buildURL (APIURL meta) (CHART_API_PATH +:+ "/" +:+ Id d) ∅ = inl url →
     calls (singlevaluechartUpdate d meta) =
       [UpdateCall url (AuthToken meta) payload]).
Proof.
  assert (∀ c, c ∈ calls (singlevaluechartUpdate d meta) →
            getPayloadSingleValueChart d = inl (call_payload c)) as Hupd.
  { intros c. run_operation.
    destruct (getPayloadSingleValueChart d) as [payload|e1];
      [|by intros ?%elem_of_nil].
    destruct (buildURL (APIURL meta) (CHART_API_PATH +:+ "/" +:+ Id d) ∅)
      as [url|e2]; [|by intros ?%elem_of_nil].
    destruct (remote_update url (AuthToken meta) payload);
      simpl; by intros ->%list_elem_of_singleton. }
  assert (∀ c, c ∈ calls (singlevaluechartCreate d meta) →
            getPayloadSingleValueChart d = inl (call_payload c)) as Hcre.
  { intros c. run_operation.
    destruct (getPayloadSingleValueChart d) as [payload|e1];
      [|by intros ?%elem_of_nil].
    destruct (buildURL (APIURL meta) CHART_API_PATH ∅) as [url|e2];
      [|by intros ?%elem_of_nil].
    destruct (remote_create url (AuthToken meta) payload) as [r|e3]; simpl.
    - destruct (buildAppURL (CustomAppURL meta)
                  (CHART_APP_PATH +:+ created_id r));
        simpl; by intros ->%list_elem_of_singleton.
    - by intros ->%list_elem_of_singleton. }
  split; [exact Hupd|]. split; [exact Hcre|]. split.
  - intros cu cc Hcu%Hupd Hcc%Hcre. congruence.
  - intros payload url Hp Hu. run_operation. rewrite Hp, Hu.
    by destruct (remote_update url (AuthToken meta) payload).
Qed.

(** C8.  The bytes [getPayloadSingleValueChart] returns are determined
    by the current field values alone: two resource data that agree on
    the configurable fields, whatever their identifier and computed
    fields, give the same result.  Payload construction reaches neither
    the remote system nor the resource data: an operation that stops
    right after it has made no submission and hands the resource data
    back unchanged. *)
Theorem C8_payload_is_pure (d : ResourceData) :
  (∀ d', same_fields d d' →
     getPayloadSingleValueChart d = getPayloadSingleValueChart d') ∧
  (∀ meta e, getPayloadSingleValueChart d = inr e →
     calls (singlevaluechartCreate d meta) = [] ∧
     data (singlevaluechartCreate d meta) = d ∧
     calls (singlevaluechartUpdate d meta) = [] ∧
     data (singlevaluechartUpdate d meta) = d).
Proof.
  split.
  - intros d'. destruct d, d'. unfold same_fields. simpl.
    intros (-> & -> & -> & -> & -> & -> & -> & -> & -> & -> & -> & -> & ->).
    reflexivity.
  - intros meta e He. run_operation. by rewrite He.
Qed.

(** * Further properties of the payload *)

(** ** The keys of the payload *)

Lemma options_other_key (d : ResourceData) (k : string) :
  k ≠ "type" → k ≠ "unitPrefix" → k ≠ "colorBy" → k ≠ "colorScale2" →
  k ≠ "programOptions" → k ≠ "refreshInterval" → k ≠ "maximumPrecision" →
  k ≠ "secondaryVisualization" → k ≠ "timestampHidden" →
  k ≠ "showSparkLine" →
  getSingleValueChartOptions d !! k = None.
Proof. intros. options_lookup. Qed.

(** X1.  Whatever the configuration, the payload has exactly the four
    top-level keys "name", "description", "programText" and "options". *)
Theorem payload_keys (d : ResourceData) :
  dom (payloadSingleValueChart d) =
    ({["name"; "description"; "programText"; "options"]} : gset string).
Proof.
  rewrite payload_unfold, !dom_insert_L, dom_empty_L. set_solver.
Qed.

(** X2.  The options object never has a key outside the eleven the code
    writes, and the object under "programOptions" never has a key other
    than "maxDelay". *)
Theorem options_keys (d : ResourceData) :
  dom (payloadOptions d) ⊆
    ({["type"; "unitPrefix"; "colorBy"; "colorScale2"; "programOptions";
       "refreshInterval"; "maximumPrecision"; "secondaryVisualization";
       "timestampHidden"; "showSparkLine"; "publishLabelOptions"]}
       : gset string) ∧
  (∀ k, is_Some (json_path ["options"; "programOptions"; k]
                   (JObj (payloadSingleValueChart d))) →
        k = "maxDelay").
Proof.
  split.
  - intros k Hk. apply elem_of_dom in Hk.
    destruct (decide (k = "publishLabelOptions")) as [->|Hp]; [set_solver|].
    rewrite payloadOptions_lookup_ne in Hk by done.
    destruct (decide (k = "type")) as [->|?]; [set_solver|].
    destruct (decide (k = "unitPrefix")) as [->|?]; [set_solver|].
    destruct (decide (k = "colorBy")) as [->|?]; [set_solver|].
    destruct (decide (k = "colorScale2")) as [->|?]; [set_solver|].
    destruct (decide (k = "programOptions")) as [->|?]; [set_solver|].
    destruct (decide (k = "refreshInterval")) as [->|?]; [set_solver|].
    destruct (decide (k = "maximumPrecision")) as [->|?]; [set_solver|].
    destruct (decide (k = "secondaryVisualization")) as [->|?]; [set_solver|].
    destruct (decide (k = "timestampHidden")) as [->|?]; [set_solver|].
    destruct (decide (k = "showSparkLine")) as [->|?]; [set_solver|].
    rewrite options_other_key in Hk by done. by destruct Hk.
  - intros k. simpl. rewrite payload_unfold, lookup_insert_eq. simpl.
    rewrite payloadOptions_lookup_ne, options_programOptions by done.
    destruct (GetOk 0%Z (max_delay d)) as [v []]; simpl; [|by intros []].
    destruct (decide (k = "maxDelay")) as [->|Hk]; [done|].
    rewrite lookup_insert_ne, lookup_empty by done. by intros [].
Qed.

(** ** When a key is written, and with what value *)

Lemma GetOk_default {A : Type} `{EqDecision A} (zero : A) (field : option A) :
  GetOk zero field =
    (default zero field, bool_decide (default zero field ≠ zero)).
Proof.
  destruct field as [v|]; simpl; [done|].
  by rewrite bool_decide_eq_false_2 by (by intros Hne).
Qed.

Lemma GetOk_cases {A : Type} `{EqDecision A} (zero : A) (field : option A) :
  (∃ v, field = Some v ∧ v ≠ zero ∧ GetOk zero field = (v, true)) ∨
  ((field = None ∨ field = Some zero) ∧ GetOk zero field = (zero, false)).
Proof.
  destruct field as [v|].
  - destruct (decide (v = zero)) as [->|Hne].
    + right. split; [by right | apply GetOk_Some_zero].
    + left. exists v. by rewrite GetOk_Some_ne.
  - right. split; [by left | done].
Qed.

Ltac exact_key field zero :=
  let v := fresh "v" in
  let Hf := fresh "Hf" in
  let Hne := fresh "Hne" in
  let Hok := fresh "Hok" in
  intros j;
  destruct (GetOk_cases zero field)
    as [(v & Hf & Hne & Hok) | ([Hf | Hf] & Hok)];
  rewrite Hok, Hf;
  (split;
   [ intros Hj; try done; exists v; by simplify_eq
   | intros (? & ? & ? & ?); by simplify_eq ]).

(** X3.  Each of the five optional scalars behind a key of its own is
    written exactly when the field is set to a value other than the zero
    value of its type, and the value written is the one configured:
    as it is for "unitPrefix", "secondaryVisualization" and
    "maximumPrecision", multiplied by 1000 in Go's [int] arithmetic for
    "refreshInterval" and for "maxDelay" inside "programOptions". *)
Theorem scalar_options_exact (d : ResourceData) :
  (∀ j, json_path ["options"; "unitPrefix"]
          (JObj (payloadSingleValueChart d)) = Some j ↔
        ∃ v, unit_prefix d = Some v ∧ v ≠ "" ∧ j = JStr v) ∧
  (∀ j, json_path ["options"; "secondaryVisualization"]
          (JObj (payloadSingleValueChart d)) = Some j ↔
        ∃ v, secondary_visualization d = Some v ∧ v ≠ "" ∧ j = JStr v) ∧
  (∀ j, json_path ["options"; "maximumPrecision"]
          (JObj (payloadSingleValueChart d)) = Some j ↔
        ∃ v, max_precision d = Some v ∧ v ≠ 0%Z ∧ j = JInt v) ∧
  (∀ j, json_path ["options"; "refreshInterval"]
          (JObj (payloadSingleValueChart d)) = Some j ↔
        ∃ v, refresh_interval d = Some v ∧ v ≠ 0%Z ∧
             j = JInt (int_mul v 1000)) ∧
  (∀ j, json_path ["options"; "programOptions"]
          (JObj (payloadSingleValueChart d)) = Some j ↔
        ∃ v, max_delay d = Some v ∧ v ≠ 0%Z ∧
             j = JObj (<["maxDelay" := JInt (int_mul v 1000)]> ∅)).
Proof.
  rewrite !json_path_option by done.
  rewrite options_unitPrefix, options_secondaryVisualization,
    options_maximumPrecision, options_refreshInterval, options_programOptions.
  split; [exact_key (unit_prefix d) ""|].
  split.
  { intros j.
    destruct (GetOk_cases "" (secondary_visualization d))
      as [(v & Hf & Hne & Hok) | ([Hf | Hf] & Hok)]; rewrite Hok, Hf.
    - rewrite decide_True by done.
      split; [intros Hj; exists v; by simplify_eq
             | intros (? & ? & ? & ?); by simplify_eq].
    - split; [done | intros (? & ? & ? & ?); by simplify_eq].
    - split; [done | intros (? & ? & ? & ?); by simplify_eq]. }
  split; [exact_key (max_precision d) 0%Z|].
  split; [exact_key (refresh_interval d) 0%Z|].
  exact_key (max_delay d) 0%Z.
Qed.

(** X4.  "colorBy" is written exactly when [color_by] is set to a
    non-empty string that is not "Scale", or to "Scale" while the list
    of colour ranges is not empty, and it always carries the configured
    string.  "colorScale2" is written exactly in the second case and
    carries that list. *)
Theorem color_options_exact (d : ResourceData) :
  (∀ j, json_path ["options"; "colorBy"]
          (JObj (payloadSingleValueChart d)) = Some j ↔
        ∃ v, color_by d = Some v ∧ v ≠ "" ∧ j = JStr v ∧
             (v = "Scale" → getColorScaleOptions d ≠ [])) ∧
  (∀ j, json_path ["options"; "colorScale2"]
          (JObj (payloadSingleValueChart d)) = Some j ↔
        color_by d = Some "Scale" ∧ getColorScaleOptions d ≠ [] ∧
        j = JArr (getColorScaleOptions d)).
Proof.
  rewrite !json_path_option by done.
  rewrite options_colorBy, options_colorScale2.
  assert (0 < length (getColorScaleOptions d) ↔ getColorScaleOptions d ≠ [])
    as Hlen.
  { destruct (getColorScaleOptions d); simpl; split; try done.
    - intros H; by inversion H.
    - intros _. apply Nat.lt_0_succ. }
  destruct (GetOk_cases "" (color_by d))
    as [(v & Hf & Hne & Hok) | ([Hf | Hf] & Hok)]; rewrite Hok, Hf.
  - destruct (decide (v = "Scale")) as [->|Hv].
    + destruct (decide (0 < length (getColorScaleOptions d))) as [Hl|Hl].
      * apply Hlen in Hl. split; intros j; split.
        -- intros [= <-]. by exists "Scale".
        -- intros (? & ? & ? & ? & ?). by simplify_eq.
        -- intros [= <-]. done.
        -- intros (? & ? & ?). by simplify_eq.
      * rewrite Hlen in Hl. split; intros j; split; try done.
        -- intros (? & ? & ? & ? & Himp). simplify_eq. destruct Hl. by apply Himp.
        -- intros (? & ? & ?). done.
    + split; intros j; split; try done.
      * intros [= <-]. by exists v.
      * intros (? & ? & ? & ? & ?). by simplify_eq.
      * intros (? & ? & ?). by simplify_eq.
  - split; intros j; split; try done.
    + intros (? & ? & ? & ?). by simplify_eq.
    + intros (? & ? & ?). by simplify_eq.
  - split; intros j; split; try done.
    + intros (? & ? & ? & ?). by simplify_eq.
    + intros (? & ? & ?). by simplify_eq.
Qed.

(** ** What the payload depends on *)

Lemma options_same_effective_values (d d' : ResourceData) :
  same_effective_values d d' →
  getSingleValueChartOptions d = getSingleValueChartOptions d'.
Proof.
  intros (_ & _ & _ & Hup & Hby & Hmd & Hri & Hmp & Hts & Hsl & Hsv & Hcs & _).
  unfold getSingleValueChartOptions, getColorScaleOptions, Get.
  rewrite !GetOk_default.
  by rewrite Hup, Hby, Hmd, Hri, Hmp, Hts, Hsl, Hsv, Hcs.
Qed.

(** X5.  The payload is a function of the effective values alone: two
    configurations that differ only in that one leaves an optional
    scalar unset where the other sets it to the zero value of its type
    ("" for a string, 0 for an integer, false for a boolean) produce the
    same payload map and the same marshalled bytes. *)
Theorem payload_same_effective_values (d d' : ResourceData) :
  same_effective_values d d' →
  payloadSingleValueChart d = payloadSingleValueChart d' ∧
  getPayloadSingleValueChart d = getPayloadSingleValueChart d'.
Proof.
  intros Hsame.
  assert (payloadSingleValueChart d = payloadSingleValueChart d') as Heq.
  { pose proof (options_same_effective_values d d' Hsame) as Hopts.
    destruct Hsame as (Hn & Hp & Hd & _ & _ & _ & _ & _ & _ & _ & _ & _ & Hvo).
    unfold payloadSingleValueChart, payloadOptions, getPerSignalVizOptions, Get.
    by rewrite Hopts, Hn, Hp, Hd, Hvo. }
  split; [exact Heq|]. unfold getPayloadSingleValueChart. by rewrite Heq.
Qed.

(** ** Durations that do not fit *)

Lemma wrap_int_range (z : Z) : in_int_range (wrap_int z).
Proof.
  unfold in_int_range, wrap_int.
  pose proof (Z.mod_pos_bound (z + 2 ^ 63) (2 ^ 64)). lia.
Qed.

Lemma wrap_int_congruent (z : Z) : ((wrap_int z - z) mod 2 ^ 64 = 0)%Z.
Proof.
  unfold wrap_int.
  rewrite (Z.mod_eq (z + 2 ^ 63) (2 ^ 64)) by lia.
  replace (z + 2 ^ 63 - 2 ^ 64 * ((z + 2 ^ 63) / 2 ^ 64) - 2 ^ 63 - z)%Z
    with (- ((z + 2 ^ 63) / 2 ^ 64) * 2 ^ 64)%Z by lia.
  apply Z.mod_mul. lia.
Qed.

(** X6.  The conversion to milliseconds is not checked for overflow: for
    every non-zero [refresh_interval] or [max_delay] of [s] seconds the
    payload carries a number that fits a 64-bit [int] and is congruent
    to [s * 1000] modulo 2^64, so when [s * 1000] does not fit, the
    number sent is not [s * 1000]. *)
Theorem milliseconds_wrap_around (d : ResourceData) (s : Z) :
  s ≠ 0%Z →
  (refresh_interval d = Some s →
     ∃ w, json_path ["options"; "refreshInterval"]
            (JObj (payloadSingleValueChart d)) = Some (JInt w) ∧
          in_int_range w ∧ ((w - s * 1000) mod 2 ^ 64 = 0)%Z ∧
          (¬ in_int_range (s * 1000) → w ≠ (s * 1000)%Z)) ∧
  (max_delay d = Some s →
     ∃ w, json_path ["options"; "programOptions"; "maxDelay"]
            (JObj (payloadSingleValueChart d)) = Some (JInt w) ∧
          in_int_range w ∧ ((w - s * 1000) mod 2 ^ 64 = 0)%Z ∧
          (¬ in_int_range (s * 1000) → w ≠ (s * 1000)%Z)).
Proof.
  intros Hs.
  assert (in_int_range (int_mul s 1000) ∧
          ((int_mul s 1000 - s * 1000) mod 2 ^ 64 = 0)%Z ∧
          (¬ in_int_range (s * 1000) → int_mul s 1000 ≠ (s * 1000)%Z))
    as Hwrap.
  { unfold int_mul. split; [apply wrap_int_range|].
    split; [apply wrap_int_congruent|].
    intros Hout Heq. apply Hout. rewrite <- Heq. apply wrap_int_range. }
  split; intros Hf; exists (int_mul s 1000); (split; [|exact Hwrap]).
  - rewrite json_path_option, options_refreshInterval by done.
    by rewrite Hf, GetOk_Some_ne.
  - assert (json_path ["options"; "programOptions"]
              (JObj (payloadSingleValueChart d)) =
              Some (JObj (<["maxDelay" := JInt (int_mul s 1000)]> ∅))) as Hpo.
    { rewrite json_path_option, options_programOptions by done.
      by rewrite Hf, GetOk_Some_ne. }
    simpl in *. destruct (payloadSingleValueChart d !! "options") as [[]|];
      simpl in *; try done.
    destruct (m !! "programOptions") as [po|]; simpl in *; [|done].
    by simplify_eq.
Qed.

(** * Further properties of the operations *)

Lemma getPayload_same_fields (d d' : ResourceData) :
  same_fields d d' →
  getPayloadSingleValueChart d = getPayloadSingleValueChart d'.
Proof.
  destruct d, d'. unfold same_fields. simpl.
  intros (-> & -> & -> & -> & -> & -> & -> & -> & -> & -> & -> & -> & ->).
  reflexivity.
Qed.

Lemma same_fields_refl (d : ResourceData) : same_fields d d.
Proof. unfold same_fields. by repeat split. Qed.

Lemma create_same_fields (d : ResourceData) (meta : signalfxConfig) :
  same_fields d (data (singlevaluechartCreate d meta)).
Proof.
  run_operation.
  destruct (getPayloadSingleValueChart d) as [payload|?];
    [|apply same_fields_refl].
  destruct (buildURL (APIURL meta) CHART_API_PATH ∅) as [url|?];
    [|apply same_fields_refl].
  destruct (remote_create url (AuthToken meta) payload) as [r|?]; simpl;
    [|apply same_fields_refl].
  destruct (buildAppURL (CustomAppURL meta) (CHART_APP_PATH +:+ created_id r));
    simpl; unfold same_fields; by repeat split.
Qed.

Lemma update_same_fields (d : ResourceData) (meta : signalfxConfig) :
  same_fields d (data (singlevaluechartUpdate d meta)).
Proof.
  run_operation.
  destruct (getPayloadSingleValueChart d) as [payload|?];
    [|apply same_fields_refl].
  destruct (buildURL (APIURL meta) (CHART_API_PATH +:+ "/" +:+ Id d) ∅)
    as [url|?]; [|apply same_fields_refl].
  destruct (remote_update url (AuthToken meta) payload); simpl;
    unfold same_fields; by repeat split.
Qed.

(** X7.  Create returns no error only when all four steps went through:
    the payload was marshalled, the API URL was built from the
    collection path, the remote system answered the one submission with
    an identifier, and the application URL was built from the path
    followed by that new identifier.  The resource data then has that
    identifier, the timestamp of the answer, and the application URL in
    [url]. *)
Theorem create_success (d : ResourceData) (meta : signalfxConfig) :
  err (singlevaluechartCreate d meta) = None →
  ∃ payload url r appURL,
    getPayloadSingleValueChart d = inl payload ∧
    buildURL (APIURL meta) CHART_API_PATH ∅ = inl url ∧
    remote_create url (AuthToken meta) payload = inl r ∧
    buildAppURL (CustomAppURL meta) (CHART_APP_PATH +:+ created_id r) =
      inl appURL ∧
    singlevaluechartCreate d meta =
      mkOutcome
        (Set_url
           (Set_last_updated (SetId d (created_id r)) (created_lastUpdated r))
           appURL)
        [CreateCall url (AuthToken meta) payload] None.
Proof.
  run_operation.
  destruct (getPayloadSingleValueChart d) as [payload|?]; [|done].
  destruct (buildURL (APIURL meta) CHART_API_PATH ∅) as [url|?]; [|done].
  destruct (remote_create url (AuthToken meta) payload) as [r|?] eqn:Hr;
    simpl; [|done].
  destruct (buildAppURL (CustomAppURL meta) (CHART_APP_PATH +:+ created_id r))
    as [appURL|?] eqn:Happ; simpl; [|done].
  intros _. by exists payload, url, r, appURL.
Qed.

(** X8.  Create and Update never alter a configurable field, whether
    they succeed or fail.  Hence the payload built from the resource
    data Create leaves behind is the payload Create built, and an Update
    that follows a Create submits the very bytes the Create submitted. *)
Theorem operations_keep_fields (d : ResourceData) (meta : signalfxConfig) :
  same_fields d (data (singlevaluechartCreate d meta)) ∧
  same_fields d (data (singlevaluechartUpdate d meta)) ∧
  getPayloadSingleValueChart (data (singlevaluechartCreate d meta)) =
    getPayloadSingleValueChart d ∧
  (∀ meta' cc cu,
     cc ∈ calls (singlevaluechartCreate d meta) →
     cu ∈ calls (singlevaluechartUpdate
                   (data (singlevaluechartCreate d meta)) meta') →
     call_payload cu = call_payload cc).
Proof.
  pose proof (create_same_fields d meta) as Hcre.
  pose proof (getPayload_same_fields _ _ Hcre) as Hpay.
  split; [exact Hcre|]. split; [apply update_same_fields|].
  split; [by rewrite <- Hpay|].
  intros meta' cc cu Hcc Hcu.
  assert (getPayloadSingleValueChart d = inl (call_payload cc)) as Hc.
  { revert Hcc. run_operation.
    destruct (getPayloadSingleValueChart d) as [payload|?];
      [|by intros ?%elem_of_nil].
    destruct (buildURL (APIURL meta) CHART_API_PATH ∅) as [url|?];
      [|by intros ?%elem_of_nil].
    destruct (remote_create url (AuthToken meta) payload) as [r|?]; simpl.
    - destruct (buildAppURL (CustomAppURL meta)
                  (CHART_APP_PATH +:+ created_id r));
        simpl; by intros ->%list_elem_of_singleton.
    - by intros ->%list_elem_of_singleton. }
  assert (getPayloadSingleValueChart (data (singlevaluechartCreate d meta)) =
            inl (call_payload cu)) as Hu.
  { revert Hcu. generalize (data (singlevaluechartCreate d meta)) as d1.
    intros d1. unfold singlevaluechartUpdate, resourceUpdate. cbv zeta.
    destruct (getPayloadSingleValueChart d1) as [payload|?];
      [|by intros ?%elem_of_nil].
    destruct (buildURL (APIURL meta') (CHART_API_PATH +:+ "/" +:+ Id d1) ∅)
      as [url|?]; [|by intros ?%elem_of_nil].
    destruct (remote_update url (AuthToken meta') payload);
      simpl; by intros ->%list_elem_of_singleton. }
  congruence.
Qed.

(** X9.  Read, Delete and Update address one and the same URL, built
    from the chart path followed by "/" and the identifier of the
    resource.  When that URL cannot be built, all three return the same
    error, the builder's message behind a fixed prefix, and hand the
    resource data back untouched without passing it on; when it can,
    Read and Delete return what their helper returns for that URL and
    the token, and Update submits to that URL. *)
Theorem managed_operations_url (d : ResourceData) (meta : signalfxConfig) :
  (∀ e, buildURL (APIURL meta) (CHART_API_PATH +:+ "/" +:+ Id d) ∅ = inr e →
     singlevaluechartRead d meta =
       mkOutcome d []
         (Some ("[DEBUG] SignalFx: Error constructing API URL: " +:+ e)) ∧
     singlevaluechartDelete d meta =
       mkOutcome d []
         (Some ("[DEBUG] SignalFx: Error constructing API URL: " +:+ e)) ∧
     (∀ payload, getPayloadSingleValueChart d = inl payload →
        singlevaluechartUpdate d meta =
          mkOutcome d []
            (Some ("[DEBUG] SignalFx: Error constructing API URL: " +:+ e)))) ∧
  (∀ url, buildURL (APIURL meta) (CHART_API_PATH +:+ "/" +:+ Id d) ∅ = inl url →
     singlevaluechartRead d meta = resourceRead url (AuthToken meta) d ∧
     singlevaluechartDelete d meta = resourceDelete url (AuthToken meta) d ∧
     (∀ payload, getPayloadSingleValueChart d = inl payload →
        calls (singlevaluechartUpdate d meta) =
          [UpdateCall url (AuthToken meta) payload])).
Proof.
  unfold singlevaluechartRead, singlevaluechartDelete. run_operation.
  split.
  - intros e He. rewrite He. split; [done|]. split; [done|].
    intros payload Hp. by rewrite Hp.
  - intros url Hu. rewrite Hu. split; [done|]. split; [done|].
    intros payload Hp. rewrite Hp.
    by destruct (remote_update url (AuthToken meta) payload).
Qed.

(** * Key-based access and the record view agree *)

Lemma RawGet_string (d : RawResourceData) (k : string) (s : Schema) :
  well_typed d → singleValueChartResource !! k = Some s →
  Type_ s = TypeString → Default s = None →
  RawGet d k = VString (default "" (raw_values d !! k ≫= assert_string)).
Proof.
  intros [Hsch Hval] Hk Hty Hd. unfold RawGet. rewrite Hsch, Hk.
  destruct (raw_values d !! k) as [v|] eqn:Hv; simpl.
  - specialize (Hval k v Hv s Hk). rewrite Hty in Hval. by destruct v.
  - by rewrite Hd, Hty.
Qed.

Lemma RawGet_int (d : RawResourceData) (k : string) (s : Schema) :
  well_typed d → singleValueChartResource !! k = Some s →
  Type_ s = TypeInt → Default s = None →
  RawGet d k = VInt (default 0%Z (raw_values d !! k ≫= assert_int)).
Proof.
  intros [Hsch Hval] Hk Hty Hd. unfold RawGet. rewrite Hsch, Hk.
  destruct (raw_values d !! k) as [v|] eqn:Hv; simpl.
  - specialize (Hval k v Hv s Hk). rewrite Hty in Hval. by destruct v.
  - by rewrite Hd, Hty.
Qed.

Lemma RawGet_bool (d : RawResourceData) (k : string) (s : Schema) (b : bool) :
  well_typed d → singleValueChartResource !! k = Some s →
  Type_ s = TypeBool → Default s = Some (VBool b) →
  RawGet d k = VBool (default b (raw_values d !! k ≫= assert_bool)).
Proof.
  intros [Hsch Hval] Hk Hty Hd. unfold RawGet. rewrite Hsch, Hk.
  destruct (raw_values d !! k) as [v|] eqn:Hv; simpl.
  - specialize (Hval k v Hv s Hk). rewrite Hty in Hval. by destruct v.
  - by rewrite Hd.
Qed.

Lemma option_bind_Some {A B : Type} (x : A) (f : A → option B) :
  Some x ≫= f = f x.
Proof. reflexivity. Qed.

Ltac stage_tac :=
  rewrite ?GetOk_default;
  unfold Get, is_zero, assert_string, assert_int, assert_bool, value_eq_string;
  cbn [typed unit_prefix color_by max_delay refresh_interval max_precision
       secondary_visualization is_timestamp_hidden show_spark_line];
  rewrite ?bool_decide_not, ?option_bind_Some; cbv beta zeta;
  repeat case_bool_decide; repeat case_decide; first [done | congruence].

Ltac stage_agrees v :=
  match goal with
  | |- ?m ≫= ?f = _ =>
      let H := fresh in
      assert (m = Some v) as H by (subst v; stage_tac);
      rewrite H; clear H; rewrite option_bind_Some; cbv beta
  end.

Lemma options_raw_typed (d : RawResourceData) :
  well_typed d →
  getSingleValueChartOptions_raw d = Some (getSingleValueChartOptions (typed d)).
Proof.
  intros Hwt.
  unfold getSingleValueChartOptions_raw, RawGetOk.
  rewrite (RawGet_string d "unit_prefix" _ Hwt eq_refl eq_refl eq_refl).
  rewrite (RawGet_string d "color_by" _ Hwt eq_refl eq_refl eq_refl).
  rewrite (RawGet_string d "secondary_visualization" _ Hwt eq_refl eq_refl eq_refl).
  rewrite (RawGet_int d "max_delay" _ Hwt eq_refl eq_refl eq_refl).
  rewrite (RawGet_int d "refresh_interval" _ Hwt eq_refl eq_refl eq_refl).
  rewrite (RawGet_int d "max_precision" _ Hwt eq_refl eq_refl eq_refl).
  rewrite (RawGet_bool d "is_timestamp_hidden" _ false Hwt eq_refl eq_refl eq_refl).
  rewrite (RawGet_bool d "show_spark_line" _ false Hwt eq_refl eq_refl eq_refl).
  clear Hwt.
  cbv beta delta [getSingleValueChartOptions]. name_lets.
  stage_agrees viz1.
  stage_agrees viz2.
  stage_agrees viz3.
  stage_agrees viz4.
  stage_agrees viz5.
  stage_agrees viz6.
  done.
Qed.

Lemma payload_raw_typed (d : RawResourceData) :
  well_typed d →
  payloadSingleValueChart_raw d = Some (payloadSingleValueChart (typed d)).
Proof.
  intros Hwt. unfold payloadSingleValueChart_raw.
  rewrite (RawGet_string d "name" _ Hwt eq_refl eq_refl eq_refl).
  rewrite (RawGet_string d "description" _ Hwt eq_refl eq_refl eq_refl).
  rewrite (RawGet_string d "program_text" _ Hwt eq_refl eq_refl eq_refl).
  rewrite (options_raw_typed d Hwt).
  unfold assert_string. rewrite !option_bind_Some.
  unfold payloadSingleValueChart, payloadOptions, Get. cbv zeta.
  by case_decide.
Qed.

(** X10.  On resource data that carries the schema of this resource and
    in which every value that is set has the type its field declares,
    payload construction read by key never panics: every key it reads is
    declared in the schema, every type assertion it makes is the one the
    declared type (and the declared default) calls for, and the result
    is the payload computed on the record view of the same data. *)
Theorem payload_by_key_never_panics (d : RawResourceData) :
  well_typed d →
  getSingleValueChartOptions_raw d =
    Some (getSingleValueChartOptions (typed d)) ∧
  payloadSingleValueChart_raw d = Some (payloadSingleValueChart (typed d)) ∧
  getPayloadSingleValueChart_raw d =
    Some (getPayloadSingleValueChart (typed d)).
Proof.
  intros Hwt. split; [by apply options_raw_typed|].
  split; [by apply payload_raw_typed|].
  unfold getPayloadSingleValueChart_raw.
  by rewrite (payload_raw_typed d Hwt).
Qed.

End SingleValueChart.

(** * Closed examples

    The theorems above applied to the sample inputs, and the inputs on
    which the spec's wording and the code part ways. *)

Abbreviation sample_payload d :=
  (JObj (payloadSingleValueChart sample_colorScaleOption
           sample_perSignalVizOption d)).

(** The scenario of the spec: the payload has the key "description",
    which the JSON object of the spec lacks. *)
Lemma C1_scenario_counterexample :
  payloadSingleValueChart sample_colorScaleOption sample_perSignalVizOption
    scenario_chart ≠ scenario_payload_in_spec ∧
  json_path ["description"] (sample_payload scenario_chart) = Some (JStr "") ∧
  scenario_payload_in_spec !! "description" = None.
Proof.
  split; [|split; reflexivity].
  intros Heq. apply (f_equal (lookup "description")) in Heq.
  vm_compute in Heq. discriminate Heq.
Qed.

(** Optional fields that were never set and are sent all the same, with
    the zero value of their type. *)
Lemma C2_unset_fields_counterexample :
  description bare_chart = None ∧
  json_path ["description"] (sample_payload bare_chart) = Some (JStr "") ∧
  is_timestamp_hidden bare_chart = None ∧
  json_path ["options"; "timestampHidden"] (sample_payload bare_chart) =
    Some (JBool false) ∧
  show_spark_line bare_chart = None ∧
  json_path ["options"; "showSparkLine"] (sample_payload bare_chart) =
    Some (JBool false).
Proof. repeat split; reflexivity. Qed.

Lemma C2_unset_fields_witness :
  json_path ["options"; "unitPrefix"] (sample_payload bare_chart) = None ∧
  (json_path ["options"; "colorBy"] (sample_payload bare_chart) = None ∧
   json_path ["options"; "colorScale2"] (sample_payload bare_chart) = None) ∧
  json_path ["options"; "programOptions"] (sample_payload zero_delay_chart) =
    None ∧
  json_path ["options"; "refreshInterval"] (sample_payload zero_refresh_chart) =
    None ∧
  json_path ["options"; "maximumPrecision"] (sample_payload bare_chart) = None ∧
  json_path ["options"; "secondaryVisualization"] (sample_payload bare_chart) =
    None ∧
  json_path ["options"; "colorScale2"] (sample_payload bare_chart) = None ∧
  json_path ["options"; "publishLabelOptions"] (sample_payload bare_chart) =
    None ∧
  json_path ["description"] (sample_payload bare_chart) = Some (JStr "") ∧
  json_path ["options"; "timestampHidden"] (sample_payload bare_chart) =
    Some (JBool false) ∧
  json_path ["options"; "showSparkLine"] (sample_payload bare_chart) =
    Some (JBool false).
Proof.
  destruct (C2_unset_fields sample_colorScaleOption sample_perSignalVizOption
              bare_chart)
    as (_ & _ & Hup & Hby & _ & _ & Hmp & Hsv & Hcs & Hvo & Hd & Hts & Hsl).
  destruct (C2_unset_fields sample_colorScaleOption sample_perSignalVizOption
              zero_delay_chart) as (_ & _ & _ & _ & Hmd & _).
  destruct (C2_unset_fields sample_colorScaleOption sample_perSignalVizOption
              zero_refresh_chart) as (_ & _ & _ & _ & _ & Hri & _).
  split; [apply Hup; left; reflexivity|].
  split; [apply Hby; left; reflexivity|].
  split; [apply Hmd; right; reflexivity|].
  split; [apply Hri; right; reflexivity|].
  split; [apply Hmp; left; reflexivity|].
  split; [apply Hsv; left; reflexivity|].
  split; [apply Hcs; reflexivity|].
  split; [apply Hvo; reflexivity|].
  split; [apply Hd; reflexivity|].
  split; [apply Hts; reflexivity | apply Hsl; reflexivity].
Defined.

(** [color_by] is "Scale" and nothing is attached: neither the nested
    colour ranges nor "colorBy". *)
Lemma C3_color_by_counterexample :
  color_by scale_without_ranges = Some "Scale" ∧
  json_path ["options"; "colorScale2"] (sample_payload scale_without_ranges) =
    None ∧
  json_path ["options"; "colorBy"] (sample_payload scale_without_ranges) =
    None.
Proof. repeat split; reflexivity. Qed.

Lemma C3_color_by_modes_witness :
  (json_path ["options"; "colorBy"] (sample_payload full_chart) =
     Some (JStr "Scale") ∧
   json_path ["options"; "colorScale2"] (sample_payload full_chart) =
     Some (JArr (getColorScaleOptions sample_colorScaleOption full_chart))) ∧
  (json_path ["options"; "colorBy"] (sample_payload scale_without_ranges) =
     None ∧
   json_path ["options"; "colorScale2"] (sample_payload scale_without_ranges) =
     None) ∧
  (json_path ["options"; "colorBy"] (sample_payload dimension_chart) =
     Some (JStr "Dimension") ∧
   json_path ["options"; "colorScale2"] (sample_payload dimension_chart) =
     None).
Proof.
  split; [|split].
  - apply (C3_color_by_modes sample_colorScaleOption sample_perSignalVizOption
             full_chart); [reflexivity | discriminate].
  - apply (C3_color_by_modes sample_colorScaleOption sample_perSignalVizOption
             scale_without_ranges); reflexivity.
  - apply (C3_color_by_modes sample_colorScaleOption sample_perSignalVizOption
             dimension_chart); [reflexivity | discriminate | discriminate].
Defined.

(** [max_delay] is explicitly set to 0 seconds and the payload carries no
    maxDelay at all, rather than 0 * 1000. *)
Lemma C4_zero_delay_counterexample :
  max_delay zero_delay_chart = Some 0%Z ∧
  json_path ["options"; "programOptions"; "maxDelay"]
    (sample_payload zero_delay_chart) = None ∧
  json_path ["options"; "programOptions"; "maxDelay"]
    (sample_payload zero_delay_chart) ≠ Some (JInt (0 * 1000)).
Proof.
  split; [reflexivity|]. split; [reflexivity|].
  intros Heq. vm_compute in Heq. discriminate Heq.
Qed.

Lemma C4_seconds_to_milliseconds_witness :
  json_path ["options"; "programOptions"; "maxDelay"]
    (sample_payload full_chart) = Some (JInt (5 * 1000)) ∧
  json_path ["options"; "refreshInterval"] (sample_payload full_chart) =
    Some (JInt (10 * 1000)) ∧
  json_path ["options"; "maximumPrecision"] (sample_payload full_chart) =
    Some (JInt 3) ∧
  json_path ["options"; "programOptions"] (sample_payload zero_delay_chart) =
    None ∧
  json_path ["options"; "refreshInterval"] (sample_payload zero_refresh_chart) =
    None.
Proof.
  destruct (C4_seconds_to_milliseconds sample_colorScaleOption
              sample_perSignalVizOption full_chart) as (Hmd & Hri & Hmp & _).
  destruct (C4_seconds_to_milliseconds sample_colorScaleOption
              sample_perSignalVizOption zero_delay_chart)
    as (_ & _ & _ & Hmd0 & _).
  destruct (C4_seconds_to_milliseconds sample_colorScaleOption
              sample_perSignalVizOption zero_refresh_chart)
    as (_ & _ & _ & _ & Hri0).
  split; [apply Hmd; [reflexivity | lia | unfold in_int_range; lia]|].
  split; [apply Hri; [reflexivity | lia | unfold in_int_range; lia]|].
  split; [apply Hmp; [reflexivity | lia]|].
  split; [apply Hmd0; reflexivity | apply Hri0; reflexivity].
Defined.

Lemma C5_empty_blocks_omitted_witness :
  json_path ["options"; "colorScale2"] (sample_payload bare_chart) = None ∧
  json_path ["options"; "publishLabelOptions"] (sample_payload bare_chart) =
    None.
Proof.
  destruct (C5_empty_blocks_omitted sample_colorScaleOption
              sample_perSignalVizOption bare_chart) as (Hcs & Hvo & _).
  split; [apply Hcs; reflexivity | apply Hvo; reflexivity].
Defined.

(** [description] was never set and is in the payload, like the two
    booleans. *)
Lemma C9_description_counterexample :
  description bare_chart = None ∧
  json_path ["description"] (sample_payload bare_chart) = Some (JStr "").
Proof. split; reflexivity. Qed.

Lemma C9_options_always_present_witness :
  json_path ["options"; "timestampHidden"] (sample_payload bare_chart) =
    Some (JBool false) ∧
  json_path ["options"; "showSparkLine"] (sample_payload bare_chart) =
    Some (JBool false) ∧
  json_path ["options"; "unitPrefix"] (sample_payload bare_chart) = None ∧
  json_path ["options"; "colorBy"] (sample_payload bare_chart) = None ∧
  json_path ["options"; "programOptions"] (sample_payload bare_chart) = None ∧
  json_path ["options"; "refreshInterval"] (sample_payload bare_chart) = None ∧
  json_path ["options"; "maximumPrecision"] (sample_payload bare_chart) = None ∧
  json_path ["options"; "secondaryVisualization"] (sample_payload bare_chart) =
    None ∧
  json_path ["options"; "colorScale2"] (sample_payload bare_chart) = None ∧
  json_path ["options"; "publishLabelOptions"] (sample_payload bare_chart) =
    None ∧
  json_path ["description"] (sample_payload bare_chart) = Some (JStr "").
Proof.
  destruct (C9_options_always_present sample_colorScaleOption
              sample_perSignalVizOption bare_chart)
    as (_ & _ & _ & _ & Hts & Hsl & Hup & Hby & Hmd & Hri & Hmp & Hsv & Hcs
        & Hvo & Hd).
  split; [apply Hts; reflexivity|]. split; [apply Hsl; reflexivity|].
  split; [apply Hup; reflexivity|]. split; [apply Hby; reflexivity|].
  split; [apply Hmd; reflexivity|]. split; [apply Hri; reflexivity|].
  split; [apply Hmp; reflexivity|]. split; [apply Hsv; reflexivity|].
  split; [apply Hcs; reflexivity|]. split; [apply Hvo; reflexivity|].
  apply Hd; reflexivity.
Defined.

Lemma C10_colorScale2_iff_colorBy_Scale_witness :
  json_path ["options"; "colorBy"] (sample_payload scale_without_ranges) =
    None ∧
  json_path ["options"; "colorScale2"] (sample_payload scale_without_ranges) =
    None.
Proof.
  apply (C10_colorScale2_iff_colorBy_Scale sample_colorScaleOption
           sample_perSignalVizOption scale_without_ranges); reflexivity.
Defined.

Abbreviation sample_Create marshal build_url build_app_url remote d :=
  (singlevaluechartCreate sample_colorScaleOption sample_perSignalVizOption
     marshal sample_CHART_API_PATH sample_CHART_APP_PATH build_url
     build_app_url remote d sample_config).

Abbreviation sample_Update d :=
  (singlevaluechartUpdate sample_colorScaleOption sample_perSignalVizOption
     sample_Marshal sample_CHART_API_PATH sample_buildURL sample_remote_update
     d sample_config).

(** Create fails at the application URL, after the remote create call
    has answered: the error comes back and the resource data, which had
    no identifier, now has one, and a timestamp. *)
Lemma C6_create_failure_counterexample :
  Id bare_chart = "" ∧
  err (sample_Create sample_Marshal sample_buildURL failing_buildAppURL
         sample_remote_create bare_chart) = Some "parse error" ∧
  Id (data (sample_Create sample_Marshal sample_buildURL failing_buildAppURL
              sample_remote_create bare_chart)) = "DiWnTp8AgAA" ∧
  last_updated
    (data (sample_Create sample_Marshal sample_buildURL failing_buildAppURL
             sample_remote_create bare_chart)) = Some PrimFloat.zero.
Proof. split; [|split; [|split]]; reflexivity. Qed.

Lemma C6_create_failure_witness :
  sample_Create failing_Marshal sample_buildURL sample_buildAppURL
    sample_remote_create bare_chart =
    mkOutcome bare_chart []
      (Some ("Failed creating json payload: " +:+ "json: unsupported value")) ∧
  sample_Create sample_Marshal failing_buildURL sample_buildAppURL
    sample_remote_create bare_chart =
    mkOutcome bare_chart []
      (Some ("[DEBUG] SignalFx: Error constructing API URL: " +:+
             "parse error")) ∧
  sample_Create sample_Marshal sample_buildURL sample_buildAppURL
    failing_remote_create bare_chart =
    mkOutcome bare_chart
      [CreateCall ("https://api.signalfx.com" +:+ "/v2/chart") "secret"
         (String.list_byte_of_string "x")]
      (Some "SignalFx returned status 500") ∧
  (∃ payload url r,
     getPayloadSingleValueChart sample_colorScaleOption
       sample_perSignalVizOption sample_Marshal bare_chart = inl payload ∧
     sample_buildURL (APIURL sample_config) sample_CHART_API_PATH ∅ = inl url ∧
     sample_remote_create url (AuthToken sample_config) payload = inl r ∧
     failing_buildAppURL (CustomAppURL sample_config)
       (sample_CHART_APP_PATH +:+ created_id r) = inr "parse error" ∧
     data (sample_Create sample_Marshal sample_buildURL failing_buildAppURL
             sample_remote_create bare_chart) =
       Set_last_updated (SetId bare_chart (created_id r))
         (created_lastUpdated r)).
Proof.
  split; [|split; [|split]].
  - apply (C6_create_failure sample_colorScaleOption sample_perSignalVizOption
             failing_Marshal sample_CHART_API_PATH sample_CHART_APP_PATH
             sample_buildURL sample_buildAppURL sample_remote_create
             bare_chart sample_config).
    reflexivity.
  - apply (C6_create_failure sample_colorScaleOption sample_perSignalVizOption
             sample_Marshal sample_CHART_API_PATH sample_CHART_APP_PATH
             failing_buildURL sample_buildAppURL sample_remote_create
             bare_chart sample_config) with (payload := String.list_byte_of_string "x");
      reflexivity.
  - apply (C6_create_failure sample_colorScaleOption sample_perSignalVizOption
             sample_Marshal sample_CHART_API_PATH sample_CHART_APP_PATH
             sample_buildURL sample_buildAppURL failing_remote_create
             bare_chart sample_config); reflexivity.
  - apply (C6_create_failure sample_colorScaleOption sample_perSignalVizOption
             sample_Marshal sample_CHART_API_PATH sample_CHART_APP_PATH
             sample_buildURL failing_buildAppURL sample_remote_create
             bare_chart sample_config).
    + reflexivity.
    + intros Heq. apply (f_equal Id) in Heq. vm_compute in Heq.
      discriminate Heq.
Defined.

Lemma C7_update_submits_full_payload_witness :
  getPayloadSingleValueChart sample_colorScaleOption sample_perSignalVizOption
    sample_Marshal managed_chart =
    inl (call_payload
           (UpdateCall "https://api.signalfx.com/v2/chart/DiWnTp8AgAA"
              "secret" (String.list_byte_of_string "x"))) ∧
  getPayloadSingleValueChart sample_colorScaleOption sample_perSignalVizOption
    sample_Marshal managed_chart =
    inl (call_payload
           (CreateCall "https://api.signalfx.com/v2/chart" "secret"
              (String.list_byte_of_string "x"))) ∧
  call_payload
    (UpdateCall "https://api.signalfx.com/v2/chart/DiWnTp8AgAA" "secret"
       (String.list_byte_of_string "x")) =
  call_payload
    (CreateCall "https://api.signalfx.com/v2/chart" "secret"
       (String.list_byte_of_string "x")) ∧
  calls (sample_Update managed_chart) =
    [UpdateCall "https://api.signalfx.com/v2/chart/DiWnTp8AgAA"
       (AuthToken sample_config) (String.list_byte_of_string "x")].
Proof.
  destruct (C7_update_submits_full_payload sample_colorScaleOption
              sample_perSignalVizOption sample_Marshal sample_CHART_API_PATH
              sample_CHART_APP_PATH sample_buildURL sample_buildAppURL
              sample_remote_create sample_remote_update managed_chart
              sample_config) as (Hupd & Hcre & Hsame & Hone).
  assert (UpdateCall "https://api.signalfx.com/v2/chart/DiWnTp8AgAA" "secret"
            (String.list_byte_of_string "x") ∈ calls (sample_Update managed_chart))
    as Hu by (vm_compute; apply list_elem_of_singleton; reflexivity).
  assert (CreateCall "https://api.signalfx.com/v2/chart" "secret"
            (String.list_byte_of_string "x") ∈
            calls (sample_Create sample_Marshal sample_buildURL
                     sample_buildAppURL sample_remote_create managed_chart))
    as Hc by (vm_compute; apply list_elem_of_singleton; reflexivity).
  split; [apply Hupd; exact Hu|]. split; [apply Hcre; exact Hc|].
  split; [apply Hsame; [exact Hu | exact Hc]|].
  apply Hone; reflexivity.
Defined.

Lemma C8_payload_is_pure_witness :
  getPayloadSingleValueChart sample_colorScaleOption sample_perSignalVizOption
    sample_Marshal scenario_chart =
  getPayloadSingleValueChart sample_colorScaleOption sample_perSignalVizOption
    sample_Marshal managed_chart ∧
  calls (sample_Create failing_Marshal sample_buildURL sample_buildAppURL
           sample_remote_create bare_chart) = [] ∧
  data (sample_Create failing_Marshal sample_buildURL sample_buildAppURL
          sample_remote_create bare_chart) = bare_chart ∧
  calls (singlevaluechartUpdate sample_colorScaleOption
           sample_perSignalVizOption failing_Marshal sample_CHART_API_PATH
           sample_buildURL sample_remote_update bare_chart sample_config) =
    [] ∧
  data (singlevaluechartUpdate sample_colorScaleOption
          sample_perSignalVizOption failing_Marshal sample_CHART_API_PATH
          sample_buildURL sample_remote_update bare_chart sample_config) =
    bare_chart.
Proof.
  split.
  - apply (C8_payload_is_pure sample_colorScaleOption sample_perSignalVizOption
             sample_Marshal sample_CHART_API_PATH sample_CHART_APP_PATH
             sample_buildURL sample_buildAppURL sample_remote_create
             sample_remote_update scenario_chart).
    unfold same_fields. simpl. repeat split; reflexivity.
  - apply (C8_payload_is_pure sample_colorScaleOption sample_perSignalVizOption
             failing_Marshal sample_CHART_API_PATH sample_CHART_APP_PATH
             sample_buildURL sample_buildAppURL sample_remote_create
             sample_remote_update bare_chart)
      with (e := "json: unsupported value").
    reflexivity.
Defined.

(** ** The further properties on the sample inputs *)

Lemma options_keys_witness :
  is_Some (json_path ["options"; "programOptions"; "maxDelay"]
             (sample_payload full_chart)) ∧
  "maxDelay" = "maxDelay".
Proof.
  assert (is_Some (json_path ["options"; "programOptions"; "maxDelay"]
                     (sample_payload full_chart))) as Hkey
    by (vm_compute; by eexists).
  split; [exact Hkey|].
  apply (options_keys sample_colorScaleOption sample_perSignalVizOption
           full_chart).
  exact Hkey.
Defined.

Lemma payload_same_effective_values_witness :
  payloadSingleValueChart sample_colorScaleOption sample_perSignalVizOption
    all_zero_chart =
  payloadSingleValueChart sample_colorScaleOption sample_perSignalVizOption
    bare_chart ∧
  getPayloadSingleValueChart sample_colorScaleOption sample_perSignalVizOption
    sample_Marshal all_zero_chart =
  getPayloadSingleValueChart sample_colorScaleOption sample_perSignalVizOption
    sample_Marshal bare_chart.
Proof.
  apply (payload_same_effective_values sample_colorScaleOption
           sample_perSignalVizOption sample_Marshal all_zero_chart bare_chart).
  unfold same_effective_values. simpl. repeat split; reflexivity.
Defined.

Lemma milliseconds_wrap_around_witness :
  (∃ w, json_path ["options"; "refreshInterval"]
          (sample_payload huge_refresh_chart) = Some (JInt w) ∧
        in_int_range w ∧ w ≠ (9223372036854776 * 1000)%Z) ∧
  (∃ w, json_path ["options"; "programOptions"; "maxDelay"]
          (sample_payload huge_delay_chart) = Some (JInt w) ∧
        in_int_range w ∧ w ≠ (9223372036854776 * 1000)%Z).
Proof.
  assert (9223372036854776 ≠ 0)%Z as Hs by lia.
  assert (¬ in_int_range (9223372036854776 * 1000)) as Hout
    by (unfold in_int_range; lia).
  split.
  - destruct (milliseconds_wrap_around sample_colorScaleOption
                sample_perSignalVizOption huge_refresh_chart
                9223372036854776%Z Hs) as [Hri _].
    destruct (Hri eq_refl) as (w & Hw & Hrange & _ & Hne).
    exists w. split; [exact Hw|]. split; [exact Hrange | exact (Hne Hout)].
  - destruct (milliseconds_wrap_around sample_colorScaleOption
                sample_perSignalVizOption huge_delay_chart
                9223372036854776%Z Hs) as [_ Hmd].
    destruct (Hmd eq_refl) as (w & Hw & Hrange & _ & Hne).
    exists w. split; [exact Hw|]. split; [exact Hrange | exact (Hne Hout)].
Defined.

Lemma create_success_witness :
  ∃ payload url r appURL,
    getPayloadSingleValueChart sample_colorScaleOption
      sample_perSignalVizOption sample_Marshal bare_chart = inl payload ∧
    sample_buildURL (APIURL sample_config) sample_CHART_API_PATH ∅ = inl url ∧
    sample_remote_create url (AuthToken sample_config) payload = inl r ∧
    sample_buildAppURL (CustomAppURL sample_config)
      (sample_CHART_APP_PATH +:+ created_id r) = inl appURL ∧
    sample_Create sample_Marshal sample_buildURL sample_buildAppURL
      sample_remote_create bare_chart =
      mkOutcome
        (Set_url
           (Set_last_updated (SetId bare_chart (created_id r))
              (created_lastUpdated r))
           appURL)
        [CreateCall url (AuthToken sample_config) payload] None.
Proof.
  apply (create_success sample_colorScaleOption sample_perSignalVizOption
           sample_Marshal sample_CHART_API_PATH sample_CHART_APP_PATH
           sample_buildURL sample_buildAppURL sample_remote_create
           bare_chart sample_config).
  reflexivity.
Defined.

Lemma operations_keep_fields_witness :
  call_payload
    (UpdateCall "https://api.signalfx.com/v2/chart/DiWnTp8AgAA" "secret"
       (String.list_byte_of_string "x")) =
  call_payload
    (CreateCall "https://api.signalfx.com/v2/chart" "secret"
       (String.list_byte_of_string "x")).
Proof.
  apply (operations_keep_fields sample_colorScaleOption
           sample_perSignalVizOption sample_Marshal sample_CHART_API_PATH
           sample_CHART_APP_PATH sample_buildURL sample_buildAppURL
           sample_remote_create sample_remote_update bare_chart sample_config)
    with (meta' := sample_config).
  - vm_compute. apply list_elem_of_singleton. reflexivity.
  - vm_compute. apply list_elem_of_singleton. reflexivity.
Defined.

Lemma managed_operations_url_witness :
  (singlevaluechartRead sample_CHART_API_PATH failing_buildURL
     failing_resourceRead managed_chart sample_config =
     mkOutcome managed_chart []
       (Some ("[DEBUG] SignalFx: Error constructing API URL: " +:+
              "parse error")) ∧
   singlevaluechartDelete sample_CHART_API_PATH failing_buildURL
     sample_resourceDelete managed_chart sample_config =
     mkOutcome managed_chart []
       (Some ("[DEBUG] SignalFx: Error constructing API URL: " +:+
              "parse error")) ∧
   singlevaluechartUpdate sample_colorScaleOption sample_perSignalVizOption
     sample_Marshal sample_CHART_API_PATH failing_buildURL
     sample_remote_update managed_chart sample_config =
     mkOutcome managed_chart []
       (Some ("[DEBUG] SignalFx: Error constructing API URL: " +:+
              "parse error"))) ∧
  (singlevaluechartRead sample_CHART_API_PATH sample_buildURL
     failing_resourceRead managed_chart sample_config =
     failing_resourceRead "https://api.signalfx.com/v2/chart/DiWnTp8AgAA"
       (AuthToken sample_config) managed_chart ∧
   singlevaluechartDelete sample_CHART_API_PATH sample_buildURL
     sample_resourceDelete managed_chart sample_config =
     sample_resourceDelete "https://api.signalfx.com/v2/chart/DiWnTp8AgAA"
       (AuthToken sample_config) managed_chart ∧
   calls (sample_Update managed_chart) =
     [UpdateCall "https://api.signalfx.com/v2/chart/DiWnTp8AgAA"
        (AuthToken sample_config) (String.list_byte_of_string "x")]).
Proof.
  split.
  - destruct (managed_operations_url sample_colorScaleOption
                sample_perSignalVizOption sample_Marshal sample_CHART_API_PATH
                failing_buildURL sample_remote_update failing_resourceRead
                sample_resourceDelete managed_chart sample_config)
      as [Hfail _].
    destruct (Hfail "parse error" eq_refl) as (Hr & Hd & Hu).
    split; [exact Hr|]. split; [exact Hd|].
    apply (Hu (String.list_byte_of_string "x")). reflexivity.
  - destruct (managed_operations_url sample_colorScaleOption
                sample_perSignalVizOption sample_Marshal sample_CHART_API_PATH
                sample_buildURL sample_remote_update failing_resourceRead
                sample_resourceDelete managed_chart sample_config)
      as [_ Hok].
    destruct (Hok "https://api.signalfx.com/v2/chart/DiWnTp8AgAA" eq_refl)
      as (Hr & Hd & Hu).
    split; [exact Hr|]. split; [exact Hd|].
    apply (Hu (String.list_byte_of_string "x")). reflexivity.
Defined.

Lemma scenario_raw_well_typed : well_typed scenario_raw.
Proof.
  split; [reflexivity|].
  unfold scenario_raw. simpl raw_values.
  repeat (apply map_Forall_insert_2;
          [intros s Hs; vm_compute in Hs; injection Hs as <-; reflexivity|]).
  apply map_Forall_empty.
Defined.

Lemma payload_by_key_never_panics_witness :
  getSingleValueChartOptions_raw sample_colorScaleOption scenario_raw =
    Some (getSingleValueChartOptions sample_colorScaleOption
            (typed scenario_raw)) ∧
  payloadSingleValueChart_raw sample_colorScaleOption
    sample_perSignalVizOption scenario_raw =
    Some (payloadSingleValueChart sample_colorScaleOption
            sample_perSignalVizOption (typed scenario_raw)) ∧
  getPayloadSingleValueChart_raw sample_colorScaleOption
    sample_perSignalVizOption sample_Marshal scenario_raw =
    Some (getPayloadSingleValueChart sample_colorScaleOption
            sample_perSignalVizOption sample_Marshal (typed scenario_raw)).
Proof.
  apply (payload_by_key_never_panics sample_colorScaleOption
           sample_perSignalVizOption sample_Marshal scenario_raw).
  exact scenario_raw_well_typed.
Defined.

(** A value of the wrong type for its field makes the assertion fail. *)
Example ill_typed_delay_panics :
  getSingleValueChartOptions_raw sample_colorScaleOption
    (mkRaw singleValueChartResource (<["max_delay" := VString "5"]> ∅) "") =
    None.
Proof. reflexivity. Qed.
